(** * Cryostat web console: notification channel and report cache

    A shallow embedding of
    - [src/app/Shared/Services/NotificationChannel.service.tsx]
      (class [NotificationChannel]), and
    - the report service (class [ReportService]),
    followed by the properties of the connection supervisor, the message
    distributor, the readiness signal and the report cache.

    The class fields become a record, every callback of the class becomes a
    function from the record to the new record and the list of calls it made
    on its collaborators (login service, notification service, web socket,
    console, consumers), in program order.  The single-threaded event loop is
    the fold of those functions over a list of events.  Calls on a
    collaborator are recorded, not followed: what the login service makes of
    [setSessionState], or the socket of [complete()], comes back to the
    channel as a later event. *)

From Stdlib Require Import ZArith NArith Ascii String.
From stdpp Require Import gmap strings list pretty.

Local Open Scope string_scope.
Local Open Scope list_scope.

Module ReportService.

(** ** [Base64.encode] of js-base64

    The standard alphabet with padding, over the bytes of the string (a
    [string] here is the UTF-8 byte sequence of the JavaScript string). *)
Definition b64_char (n : N) : ascii :=
  if (n <? 26)%N then ascii_of_N (65 + n)
  else if (n <? 52)%N then ascii_of_N (97 + (n - 26))
  else if (n <? 62)%N then ascii_of_N (48 + (n - 52))
  else if (n =? 62)%N then "+"%char
  else "/"%char.

Fixpoint b64_groups (bs : list N) : string :=
  match bs with
  | [] => ""
  | [a] =>
      String (b64_char (a / 4))
        (String (b64_char ((a mod 4) * 16)) "==")
  | [a; b] =>
      String (b64_char (a / 4))
        (String (b64_char ((a mod 4) * 16 + b / 16))
           (String (b64_char ((b mod 16) * 4)) "="))
  | a :: b :: c :: rest =>
      String (b64_char (a / 4))
        (String (b64_char ((a mod 4) * 16 + b / 16))
           (String (b64_char ((b mod 16) * 4 + c / 64))
              (String (b64_char (c mod 64)) (b64_groups rest))))
  end%N.

Definition Base64_encode (s : string) : string :=
  b64_groups (map N_of_ascii (list_ascii_of_string s)).

(** ** The data the service handles *)

(** A [Recording]: the members the service reads; [state] is present on an
    active recording only. *)
Record Recording := {
  name : string;
  reportUrl : string;
  state : option string
}.

(** What a storage call can throw; [isQuotaExceededError] tells the two
    apart. *)
Inductive StorageError :=
| QuotaExceededError (msg : string)
| StorageUnavailable (msg : string).

Definition isQuotaExceededError (err : StorageError) : bool :=
  match err with
  | QuotaExceededError _ => true
  | StorageUnavailable _ => false
  end.

Definition message_of (err : StorageError) : string :=
  match err with
  | QuotaExceededError m => m
  | StorageUnavailable m => m
  end.

(** What the browser does with one storage call: it performs it or throws. *)
Inductive Outcome :=
| Performed
| Throws (err : StorageError).

(** What the [error] callback of [tap] can be handed. *)
Inductive ReportError :=
| GenerationError (ename emessage detail : string) (status : Z)
| OtherError (ename emessage : string).

(** Calls on the notification service. *)
Inductive Call :=
| Warning (ttl : string) (detail : option string)
| Danger (ttl : string) (detail : string).

(** [sessionStorage.setItem(k, v)] *)
Definition setItem (o : Outcome) (k v : string) (store : gmap string string)
  : option StorageError * gmap string string :=
  match o with
  | Performed => (None, <[k := v]> store)
  | Throws err => (Some err, store)
  end.

(** [sessionStorage.removeItem(k)] *)
Definition removeItem (o : Outcome) (k : string) (store : gmap string string)
  : option StorageError * gmap string string :=
  match o with
  | Performed => (None, delete k store)
  | Throws err => (Some err, store)
  end.

(** Lines 119-129. *)
Definition key (recording : Recording) : string :=
  Base64_encode ("report." +:+ reportUrl recording).

Definition analysisKey (connectUrl : string) : string :=
  Base64_encode (connectUrl +:+ ".latestReport").

Definition analysisKeyTimestamp (connectUrl : string) : string :=
  Base64_encode (connectUrl +:+ ".latestReportTimestamp").

(** [delete(recording)] (lines 110-112). *)
Definition delete_recording (o : Outcome) (recording : Recording)
    (store : gmap string string) : option StorageError * gmap string string :=
  removeItem o (key recording) store.

(** [deleteCachedAnalysisReport(connectUrl)] (lines 114-117). *)
Definition deleteCachedAnalysisReport (o1 o2 : Outcome) (connectUrl : string)
    (store : gmap string string) : option StorageError * gmap string string :=
  match removeItem o1 (analysisKey connectUrl) store with
  | (Some err, store1) => (Some err, store1)
  | (None, store1) => removeItem o2 (analysisKeyTimestamp connectUrl) store1
  end.

Section Service.

(** The analysis results of a report are opaque here. *)
Context {Report : Type}.

(** [JSON.stringify] on a report. *)
Variable JSON_stringify : Report -> string.

(** [isActiveRecording] of [api.utils]. *)
Variable isActiveRecording : Recording -> bool.

(** The [try] block of lines 66-68: the second call runs when the first
    returned. *)
Definition store_report (o1 o2 : Outcome) (connectUrl : string)
    (report : Report) (now : string) (store : gmap string string)
  : option StorageError * gmap string string :=
  match setItem o1 (analysisKey connectUrl) (JSON_stringify report) store with
  | (Some err, store1) => (Some err, store1)
  | (None, store1) => setItem o2 (analysisKeyTimestamp connectUrl) now store1
  end.

(** The [next] callback of [tap] in [reportJson] (lines 64-80).  [o1] and
    [o2] are the outcomes of the two [setItem] calls, [o3] that of the
    [removeItem] call of the handler; [now] is [Date.now().toString()].
    The result is what the callback throws, if anything (an exception that
    leaves the callback reaches the subscriber of [reportJson] as an error),
    the storage it leaves and the notifications it raised. *)
Definition tap_next (o1 o2 o3 : Outcome) (recording : Recording)
    (connectUrl : string) (report : Report) (now : string)
    (store : gmap string string)
  : option StorageError * gmap string string * list Call :=
  if isActiveRecording recording then
    match store_report o1 o2 connectUrl report now store with
    | (None, store1) => (None, store1, [])
    | (Some err, store1) =>
        if isQuotaExceededError err then
          let '(thrown, store2) := delete_recording o3 recording store1 in
          (thrown, store2, [Warning "Report Caching Failed" (Some (message_of err))])
        else
          let '(thrown, store2) := delete_recording o3 recording store1 in
          (thrown, store2,
           [Warning "Report Caching Failed" (Some "localStorage is not available")])
    end
  else (None, store, []).

(** The [error] callback of [tap] (lines 81-90), once [messageDetail] has
    produced its first value. *)
Definition tap_error (o1 o2 : Outcome) (connectUrl : string) (err : ReportError)
    (store : gmap string string)
  : option StorageError * gmap string string * list Call :=
  match err with
  | GenerationError n m detail status =>
      if (500 <=? status)%Z then
        let '(thrown, store1) := deleteCachedAnalysisReport o1 o2 connectUrl store in
        (thrown, store1, [Warning ("Report generation failure: " +:+ detail) None])
      else (None, store, [Danger n m])
  | OtherError n m => (None, store, [Danger n m])
  end.

End Service.

(** ** Reading the cache and the whole of [reportJson] *)

(** The inverse of [b64_char] on the alphabet. *)
Definition b64_index (c : ascii) : N :=
  let n := N_of_ascii c in
  if ((65 <=? n) && (n <=? 90))%N then (n - 65)%N
  else if ((97 <=? n) && (n <=? 122))%N then (n - 71)%N
  else if ((48 <=? n) && (n <=? 57))%N then (n + 4)%N
  else if (n =? 43)%N then 62%N
  else 63%N.

(** The bytes of a padded base64 text, four characters at a time. *)
Fixpoint b64_ungroup (s : string) : list N :=
  match s with
  | String c1 (String c2 (String c3 (String c4 rest))) =>
      let i1 := b64_index c1 in
      let i2 := b64_index c2 in
      let i3 := b64_index c3 in
      let i4 := b64_index c4 in
      if Ascii.eqb c3 "=" then [i1 * 4 + i2 / 16]
      else if Ascii.eqb c4 "=" then
        [i1 * 4 + i2 / 16; (i2 mod 16) * 16 + i3 / 4]
      else (i1 * 4 + i2 / 16) :: ((i2 mod 16) * 16 + i3 / 4)
             :: ((i3 mod 4) * 64 + i4) :: b64_ungroup rest
  | _ => []
  end%N.

(** [Base64.decode] of js-base64, on the output of [Base64.encode]. *)
Definition Base64_decode (s : string) : string :=
  string_of_list_ascii (map ascii_of_N (b64_ungroup s)).

Section Retrieval.

Context {Report : Type}.

Variable JSON_stringify : Report -> string.
Variable isActiveRecording : Recording -> bool.

(** [JSON.parse] on a stored text: the value, or nothing when it throws. *)
Variable JSON_parse : string -> option Report.

(** [Number] on a stored text: the number, or nothing for [NaN].  The
    texts stored under the timestamp key are those of [Date.now()],
    integers. *)
Variable parse_number : string -> option Z.

(** The empty array [[]]. *)
Variable no_results : Report.

(** [CachedReportValue]. *)
Record CachedReportValue := { report : Report; timestamp : Z }.

(** [Number(sessionStorage.getItem(k))]: [Number(null)] is [0]. *)
Definition Number_of (item : option string) : option Z :=
  match item with
  | None => Some 0%Z
  | Some text => parse_number text
  end.

(** [getCachedAnalysisReport(connectUrl)] (lines 95-108): nothing when
    [JSON.parse] throws.  An empty text is falsy, and [NaN || 0] is [0]. *)
Definition getCachedAnalysisReport (connectUrl : string)
    (store : gmap string string) : option CachedReportValue :=
  let stored := store !! analysisKey connectUrl in
  let storedTimestamp := Number_of (store !! analysisKeyTimestamp connectUrl) in
  match stored with
  | Some text =>
      if String.eqb text "" then Some {| report := no_results; timestamp := 0 |}
      else match JSON_parse text with
           | Some parsed =>
               Some {| report := parsed;
                       timestamp := match storedTimestamp with
                                    | Some n => n
                                    | None => 0%Z
                                    end |}
           | None => None
           end
  | None => Some {| report := no_results; timestamp := 0 |}
  end.

(** What the two [concatMap]s of lines 35-62 hand to [tap]: the decoded
    results of an OK response, the status line and body of any other
    response, or an error of the request or of the decoding. *)
Inductive Fetched :=
| RespOk (results : Report)
| RespNotOk (statusText text : string) (status : Z)
| RequestFailed (ename emessage : string).

(** What the subscriber of [reportJson] is told. *)
Inductive Emission :=
| Emits (results : Report)
| Errors (err : ReportError)
| Rethrows (err : StorageError).

(** [reportJson(recording, connectUrl)] (lines 31-93).  [o1], [o2], [o3]
    are the outcomes of the storage calls of the [next] callback, [e1],
    [e2] those of the [error] callback.  An exception of the [next]
    callback becomes the error of the stream; one inside the subscription
    to [messageDetail] does not reach the subscriber. *)
Definition reportJson (o1 o2 o3 e1 e2 : Outcome) (recording : Recording)
    (connectUrl : string) (resp : Fetched) (now : string)
    (store : gmap string string)
  : Emission * gmap string string * list Call :=
  if String.eqb (reportUrl recording) "" then
    (Errors (OtherError "Error" "No recording report URL"), store, [])
  else
    match resp with
    | RespOk results =>
        let '(thrown, store1, calls) :=
          tap_next JSON_stringify isActiveRecording o1 o2 o3 recording
            connectUrl results now store in
        (match thrown with
         | None => Emits results
         | Some err => Rethrows err
         end, store1, calls)
    | RespNotOk statusText text status =>
        let ge := GenerationError ("Report Failure (" +:+ name recording +:+ ")")
                    statusText text status in
        let '(_, store1, calls) := tap_error e1 e2 connectUrl ge store in
        (Errors ge, store1, calls)
    | RequestFailed ename emessage =>
        let '(_, store1, calls) :=
          tap_error e1 e2 connectUrl (OtherError ename emessage) store in
        (Errors (OtherError ename emessage), store1, calls)
    end.

End Retrieval.

(** A recording and a target for the examples below. *)
Definition sample_recording : Recording :=
  {| name := "profile";
     reportUrl := "http://cryostat.local/api/v1/reports/profile";
     state := Some "RUNNING" |}.

Definition sample_connectUrl : string :=
  "service:jmx:rmi:///jndi/rmi://app:9091/jmxrmi".

(** A store that holds an earlier report of the sample target. *)
Definition sample_store : gmap string string :=
  <[analysisKey sample_connectUrl := "[]"]>
    (<[analysisKeyTimestamp sample_connectUrl := "1600000000000"]> ∅).

Definition has_state (recording : Recording) : bool :=
  match state recording with
  | Some _ => true
  | None => false
  end.

(** A reading of decimal texts, for the examples: [Number] on a text of
    digits. *)
Fixpoint digits_value (text : string) (acc : Z) : option Z :=
  match text with
  | "" => Some acc
  | String c rest =>
      let n := Z.of_N (N_of_ascii c) in
      if ((48 <=? n) && (n <=? 57))%Z
      then digits_value rest (10 * acc + (n - 48))%Z
      else None
  end.

Definition sample_number (text : string) : option Z := digits_value text 0.

(** Reports as their JSON text, for the examples. *)
Definition sample_parse (text : string) : option string := Some text.

End ReportService.

Module NotificationChannel.

(** ** Types imported by the service *)

(** Modelled from the spec: the [SessionState] enum of [service.types] is not
    part of the sources at hand; the spec names its three members
    (no session / establishing / active).  The source spells them
    [NO_USER_SESSION], [CREATING_USER_SESSION] and [USER_SESSION]. *)
Inductive SessionState := NO_USER_SESSION | CREATING_USER_SESSION | USER_SESSION.

(** Modelled from the spec: the [AuthMethod] enum of [service.types],
    enum{NONE,BASIC,BEARER}. *)
Inductive AuthMethod := NONE | BASIC | BEARER.

(** The members of [CloseStatus] the source mentions.  Their numeric values
    live in [api.types] and are a parameter below. *)
Inductive CloseStatus := LOGGED_OUT | PROTOCOL_FAILURE | INTERNAL_ERROR | UNKNOWN.

(** PatternFly's [AlertVariant]. *)
Inductive AlertVariant := success | danger | warning | info | custom.

#[global] Instance SessionState_eq_dec : EqDecision SessionState.
Proof. solve_decision. Defined.
#[global] Instance AuthMethod_eq_dec : EqDecision AuthMethod.
Proof. solve_decision. Defined.
#[global] Instance CloseStatus_eq_dec : EqDecision CloseStatus.
Proof. solve_decision. Defined.
#[global] Instance AlertVariant_eq_dec : EqDecision AlertVariant.
Proof. solve_decision. Defined.

(** [ReadyState]: [{ ready: boolean; code?: CloseStatus }]. *)
Record ReadyState := { ready : bool; code : option CloseStatus }.

#[global] Instance ReadyState_eq_dec : EqDecision ReadyState.
Proof. solve_decision. Defined.

(** One emission of [combineLatest([notificationsUrl, token, authMethod,
    sessionState, timer])]: the array [parts]. *)
Record Parts := {
  url : string;
  token : string;
  authMethod : AuthMethod;
  sessionState : SessionState;
  tick : nat
}.

#[global] Instance Parts_eq_dec : EqDecision Parts.
Proof. solve_decision. Defined.

(** [_.isEqual] on two emissions: deep (structural) equality. *)
Definition isEqual (a b : Parts) : bool := bool_decide (a = b).

(** A JavaScript [Error]: its message and its stack; [err_stack] is [None]
    when [err.stack] is falsy. *)
Record Error := { err_message : string; err_stack : option string }.

(** The three alert functions of the notification service that the channel
    calls positionally. *)
Inductive AlertFn := fn_info | fn_danger | fn_warning.

#[global] Instance AlertFn_eq_dec : EqDecision AlertFn.
Proof. solve_decision. Defined.

Section Channel.

(** The payload of a frame ([msg.message]) is opaque to the channel. *)
Context {Payload : Type}.

(** [NotificationMessage]: the channel reads [meta.category] and [message]. *)
Record NotificationMessage := {
  meta_category : string;
  message : Payload
}.

(** The value type of [messageKeys]: [title], and optional [body], [variant]
    and [hidden]. *)
Record NotificationMessageMapper := {
  title : string;
  body : option (NotificationMessage -> string);
  variant : option AlertVariant;
  hidden : option bool
}.

(** The [message] member handed to [notifications.notify]: the text computed
    by a [body] transform, or the frame's payload as it came. *)
Inductive NotifyBody :=
| Text (s : string)
| Raw (p : Payload).

(** The argument of [notifications.notify]. *)
Record Notification := {
  n_title : string;
  n_message : NotifyBody;
  n_category : option string;
  n_variant : AlertVariant;
  n_hidden : option bool
}.

(** Calls made on the collaborators, in program order. *)
Inductive Effect :=
| ReadyNext (r : ReadyState)                 (* this._ready.next(r) *)
| SetSessionState (s : SessionState)         (* this.login.setSessionState(s) *)
| Notify (n : Notification)                  (* this.notifications.notify(n) *)
| Alert (fn : AlertFn) (ttl : string) (detail : option string)
        (category : option string) (autoDismiss : option bool)
                                             (* notifications.info / danger *)
| WsComplete (c : nat)                       (* ws.complete() *)
| WsCreate (c : nat) (u : string) (protocol : option string)
                                             (* webSocket({url, protocol, ...}) *)
| WsSubscribe (c : nat)                      (* ws.subscribe({...}) *)
| WsSend (c : nat) (frame : string)          (* ws.next({message: frame}) *)
| Deliver (consumer : nat) (msg : NotificationMessage)
                                             (* a consumer's callback *)
| ConsoleError (text : string).              (* console.error(text) *)

(** Observers of the [_messages] subject, in subscription order. *)
Inductive Observer :=
| Registered (key : string) (value : NotificationMessageMapper)
| FallbackHandler
| Consumer (id : nat) (category : string).

(** The fields of the class, the memory of [distinctUntilChanged] and the
    bookkeeping of object identities. *)
Record Channel := {
  ws : option nat;                 (* this.ws: the handle, by identity *)
  _ready : ReadyState;             (* current value of the BehaviorSubject *)
  _messages : list Observer;       (* observers of the Subject *)
  previous : option Parts;         (* last emission let through *)
  upstream_stopped : bool;         (* the combined stream has errored *)
  sockets : nat;                   (* sockets created so far *)
  consumers_seen : nat             (* consumer subscriptions made so far *)
}.

Definition set_ws (w : option nat) (st : Channel) : Channel :=
  {| ws := w; _ready := _ready st; _messages := _messages st;
     previous := previous st; upstream_stopped := upstream_stopped st;
     sockets := sockets st; consumers_seen := consumers_seen st |}.

Definition set_ready (r : ReadyState) (st : Channel) : Channel :=
  {| ws := ws st; _ready := r; _messages := _messages st;
     previous := previous st; upstream_stopped := upstream_stopped st;
     sockets := sockets st; consumers_seen := consumers_seen st |}.

Definition set_messages (os : list Observer) (st : Channel) : Channel :=
  {| ws := ws st; _ready := _ready st; _messages := os;
     previous := previous st; upstream_stopped := upstream_stopped st;
     sockets := sockets st; consumers_seen := consumers_seen st |}.

Definition set_previous (p : option Parts) (st : Channel) : Channel :=
  {| ws := ws st; _ready := _ready st; _messages := _messages st;
     previous := p; upstream_stopped := upstream_stopped st;
     sockets := sockets st; consumers_seen := consumers_seen st |}.

Definition set_upstream_stopped (b : bool) (st : Channel) : Channel :=
  {| ws := ws st; _ready := _ready st; _messages := _messages st;
     previous := previous st; upstream_stopped := b;
     sockets := sockets st; consumers_seen := consumers_seen st |}.

Definition set_sockets (n : nat) (st : Channel) : Channel :=
  {| ws := ws st; _ready := _ready st; _messages := _messages st;
     previous := previous st; upstream_stopped := upstream_stopped st;
     sockets := n; consumers_seen := consumers_seen st |}.

Definition set_consumers_seen (n : nat) (st : Channel) : Channel :=
  {| ws := ws st; _ready := _ready st; _messages := _messages st;
     previous := previous st; upstream_stopped := upstream_stopped st;
     sockets := sockets st; consumers_seen := n |}.

(** ** Callbacks as actions

    An action reads and writes the fields and appends to the calls made. *)
Definition Action : Type := Channel -> Channel * list Effect.

Definition skip : Action := fun st => (st, []).

Definition call (e : Effect) : Action := fun st => (st, [e]).

Definition modify (f : Channel -> Channel) : Action := fun st => (f st, []).

Definition andThen (a b : Action) : Action :=
  fun st => let '(st1, e1) := a st in
            let '(st2, e2) := b st1 in
            (st2, e1 ++ e2).

Notation "a >> b" := (andThen a b) (at level 62, right associativity).

(** [this._ready.next(r)]: the subject stores [r] and tells its observers. *)
Definition ready_next (r : ReadyState) : Action :=
  modify (set_ready r) >> call (ReadyNext r).

(** ** Parameters: what the imported modules define *)

(** [messageKeys] of [api.utils]: a JavaScript [Map], kept in insertion
    order; its keys are pairwise distinct. *)
Variable messageKeys : list (string * NotificationMessageMapper).

(** [NotificationCategory[name]]: the enum member of that name, if any. *)
Variable NotificationCategory : string -> option string.

(** The numeric value of each [CloseStatus] member. *)
Variable CloseStatus_value : CloseStatus -> Z.

(** [JSON.stringify] on a string. *)
Variable JSON_stringify : string -> string.

(** [messageKeys.has(k)]. *)
Definition messageKeys_has (k : string) : bool :=
  existsb (fun kv => String.eqb (fst kv) k) messageKeys.

(** ** The message distributor *)

(** Lines 43-60: [messageKeys.forEach] subscribes one handler per entry that
    has a [body] and a [variant]. *)
Definition registered_observers : list Observer :=
  flat_map (fun kv =>
              match body (snd kv), variant (snd kv) with
              | Some _, Some _ => [Registered (fst kv) (snd kv)]
              | _, _ => []
              end) messageKeys.

(** What one observer does with a frame.
    - a registered handler sits behind [messages(key)], the filter
      [msg.meta.category === key] (line 193), and re-checks its entry
      (line 48);
    - the fallback handler sits behind the filter of line 64;
    - a consumer sits behind [messages(category)]. *)
Definition observer_next (o : Observer) (msg : NotificationMessage) : list Effect :=
  match o with
  | Registered key value =>
      if String.eqb (meta_category msg) key then
        match body value, variant value with
        | Some b, Some v =>
            [Notify {| n_title := title value;
                       n_message := Text (b msg);
                       n_category := Some key;
                       n_variant := v;
                       n_hidden := hidden value |}]
        | _, _ => []
        end
      else []
  | FallbackHandler =>
      if negb (messageKeys_has (meta_category msg)) then
        [Notify {| n_title := meta_category msg;
                   n_message := Raw (message msg);
                   n_category := NotificationCategory (meta_category msg);
                   n_variant := success;
                   n_hidden := None |}]
      else []
  | Consumer id category =>
      if String.eqb (meta_category msg) category then [Deliver id msg] else []
  end.

(** [this._messages.next(v)]: every observer, in subscription order. *)
Definition messages_next (v : NotificationMessage) : Action :=
  fun st => (st, flat_map (fun o => observer_next o v) (_messages st)).

(** [logError] (lines 196-200). *)
Definition logError (ttl : string) (err : Error) : Action :=
  call (ConsoleError (ttl +:+ ":" +:+ err_message err)) >>
  match err_stack err with
  | Some s => call (ConsoleError s)
  | None => skip
  end >>
  call (Alert fn_danger ttl (Some (JSON_stringify (err_message err))) None None).

(** ** The connection supervisor *)

(** Lines 107-111. *)
Definition subprotocol_of (a : AuthMethod) (t : string) : option string :=
  match a with
  | BEARER => Some ("base64url.bearer.authorization.cryostat." +:+ t)
  | BASIC => Some ("basic.authorization.cryostat." +:+ t)
  | NONE => None
  end.

(** [openObserver.next] (lines 121-124). *)
Definition openObserver_next : Action :=
  ready_next {| ready := true; code := None |} >>
  call (SetSessionState USER_SESSION).

(** The [switch] of lines 132-156: the values assigned to [code], [msg],
    [fn] and [sessionState]; the first matching [case] wins. *)
Definition close_switch (evt_code : Z)
  : CloseStatus * option string * AlertFn * SessionState :=
  if Z.eqb evt_code (CloseStatus_value LOGGED_OUT) then
    (LOGGED_OUT, Some "Logout success", fn_info, NO_USER_SESSION)
  else if Z.eqb evt_code (CloseStatus_value PROTOCOL_FAILURE) then
    (PROTOCOL_FAILURE, Some "Authentication failed", fn_danger, NO_USER_SESSION)
  else if Z.eqb evt_code (CloseStatus_value INTERNAL_ERROR) then
    (INTERNAL_ERROR, Some "Internal server error", fn_danger, CREATING_USER_SESSION)
  else
    (UNKNOWN, None, fn_info, CREATING_USER_SESSION).

(** [closeObserver.next] (lines 127-165).  [fn] is applied to the title,
    [msg], [NotificationCategory.WsClientActivity] and
    [fn === this.notifications.info]. *)
Definition closeObserver_next (evt_code : Z) : Action :=
  let '(c, msg, fn, s) := close_switch evt_code in
  ready_next {| ready := false; code := Some c |} >>
  call (SetSessionState s) >>
  call (Alert fn "WebSocket connection lost" msg (Some "WsClientActivity")
          (Some (bool_decide (fn = fn_info)))).

(** The [next] callback of the combined stream (lines 96-176).
    [parseInt] of the numeric enum member is the member itself. *)
Definition reconcile (parts : Parts) : Action :=
  fun st =>
    if bool_decide (sessionState parts <> CREATING_USER_SESSION) then (st, [])
    else
      let subprotocol := subprotocol_of (authMethod parts) (token parts) in
      let completed := match ws st with
                       | Some old => [WsComplete old]
                       | None => []
                       end in
      let c := sockets st in
      (set_ws (Some c) (set_sockets (S c) st),
       completed ++ [WsCreate c (url parts) subprotocol;
                     WsSubscribe c;
                     WsSend c "connect"]).

(** [distinctUntilChanged(_.isEqual)] in front of [reconcile]: the first
    emission passes; a later one passes when it differs from the last one
    that passed. *)
Definition upstream_next (parts : Parts) : Action :=
  fun st =>
    if upstream_stopped st then (st, [])
    else match previous st with
         | Some p =>
             if isEqual p parts then (st, [])
             else reconcile parts (set_previous (Some parts) st)
         | None => reconcile parts (set_previous (Some parts) st)
         end.

(** The [error] callback of the combined stream (line 177); an errored
    stream emits nothing more. *)
Definition upstream_error (err : Error) : Action :=
  fun st =>
    if upstream_stopped st then (st, [])
    else (modify (set_upstream_stopped true) >>
          logError "Notifications URL configuration" err) st.

(** [this.login.loggedOut()] emits (lines 180-183). *)
Definition loggedOut_next : Action :=
  fun st => match ws st with
            | Some c => (st, [WsComplete c])
            | None => (st, [])
            end.

(** A component subscribes to [messages(category)]. *)
Definition subscribe (category : string) : Action :=
  fun st =>
    let id := consumers_seen st in
    (set_messages (_messages st ++ [Consumer id category])
       (set_consumers_seen (S id) st), []).

(** A component drops its subscription. *)
Definition unsubscribe (id : nat) : Action :=
  modify (fun st =>
    set_messages
      (List.filter (fun o => match o with
                             | Consumer i _ => negb (Nat.eqb i id)
                             | _ => true
                             end)
                   (_messages st)) st).

(** The constructor: field initialisers (lines 35-37), the registered
    handlers, then the fallback handler. *)
Definition constructor : Channel :=
  {| ws := None;
     _ready := {| ready := false; code := None |};
     _messages := registered_observers ++ [FallbackHandler];
     previous := None;
     upstream_stopped := false;
     sockets := 0;
     consumers_seen := 0 |}.

(** [isReady()] hands out the behaviour subject: a new observer is told the
    current value at once. *)
Definition isReady_replay (st : Channel) : ReadyState := _ready st.

(** ** The event loop *)

Inductive Event :=
| Upstream (parts : Parts)
| UpstreamError (err : Error)
| Open
| Close (evt_code : Z)
| Message (v : NotificationMessage)
| WsError (err : Error)
| LoggedOut
| LoggedOutError (err : Error)
| Subscribe (category : string)
| Unsubscribe (id : nat).

Definition step (ev : Event) : Action :=
  match ev with
  | Upstream parts => upstream_next parts
  | UpstreamError err => upstream_error err
  | Open => openObserver_next
  | Close evt_code => closeObserver_next evt_code
  | Message v => messages_next v
  | WsError err => logError "WebSocket error" err
  | LoggedOut => loggedOut_next
  | LoggedOutError err => logError "Notifications URL configuration" err
  | Subscribe category => subscribe category
  | Unsubscribe id => unsubscribe id
  end.

Fixpoint run (evs : list Event) : Action :=
  match evs with
  | [] => skip
  | ev :: evs' => step ev >> run evs'
  end.

(** ** Observations on the calls made *)

(** The arguments of the [notifications.notify] calls, in order. *)
Definition notifications (calls : list Effect) : list Notification :=
  flat_map (fun e => match e with Notify n => [n] | _ => [] end) calls.

(** The consumer callbacks run, in order. *)
Definition deliveries (calls : list Effect) : list (nat * NotificationMessage) :=
  flat_map (fun e => match e with Deliver i m => [(i, m)] | _ => [] end) calls.

(** The consumers subscribed to [messages(category)], in subscription
    order. *)
Definition subscribers (category : string) (st : Channel) : list nat :=
  flat_map (fun o => match o with
                     | Consumer i c => if String.eqb category c then [i] else []
                     | _ => []
                     end) (_messages st).

(** The number of sockets the calls create. *)
Definition connection_attempts (calls : list Effect) : nat :=
  length (List.filter (fun e => match e with WsCreate _ _ _ => true | _ => false end)
            calls).

(** The sockets created and not yet completed, after one more call:
    [webSocket(...)] adds the socket, the call of [complete()] on it takes
    it out.  This is bookkeeping of the channel's calls; the connection
    itself outlasts the call of [complete()], see [connected]. *)
Definition after_call (conns : list nat) (e : Effect) : list nat :=
  match e with
  | WsCreate c _ _ => conns ++ [c]
  | WsComplete c => List.filter (fun x => negb (Nat.eqb x c)) conns
  | _ => conns
  end.

(** The sockets created and not yet completed, after the given calls. *)
Definition open_sockets (calls : list Effect) : list nat :=
  fold_left after_call calls [].

(** A call on the notification service. *)
Definition is_notification (e : Effect) : bool :=
  match e with
  | Notify _ | Alert _ _ _ _ _ => true
  | _ => false
  end.

Definition is_upstream (ev : Event) : bool :=
  match ev with
  | Upstream _ => true
  | _ => false
  end.

Definition is_logout (ev : Event) : bool :=
  match ev with
  | LoggedOut => true
  | _ => false
  end.

Definition is_open_or_close (ev : Event) : bool :=
  match ev with
  | Open | Close _ => true
  | _ => false
  end.

(** The outcome of a close event, call by call. *)
Definition close_outcome (st : Channel) (evt_code : Z) (c : CloseStatus)
    (s : SessionState) (fn : AlertFn) (detail : option string)
    (autoDismiss : bool) : Prop :=
  closeObserver_next evt_code st =
    (set_ready {| ready := false; code := Some c |} st,
     [ReadyNext {| ready := false; code := Some c |};
      SetSessionState s;
      Alert fn "WebSocket connection lost" detail (Some "WsClientActivity")
        (Some autoDismiss)]).

(** A call that creates or completes a socket. *)
Definition changes_sockets (e : Effect) : bool :=
  match e with
  | WsCreate _ _ _ | WsComplete _ => true
  | _ => false
  end.

(** The handle accounts for the sockets that exist: there is none, or there
    is the one the handle refers to. *)
Definition tracks (st : Channel) (conns : list nat) : Prop :=
  conns = [] \/ exists c, ws st = Some c /\ conns = [c].

(** Socket identities are handed out in increasing order. *)
Definition fresh (st : Channel) : Prop :=
  forall c, ws st = Some c -> c < sockets st.

(** An observer attached by a component, after construction. *)
Definition is_consumer (o : Observer) : bool :=
  match o with
  | Consumer _ _ => true
  | _ => false
  end.

(** The observers of [_messages] are those of the constructor followed by
    the consumers. *)
Definition observers_shape (st : Channel) : Prop :=
  exists cs, _messages st = registered_observers ++ FallbackHandler :: cs /\
             Forall (fun o => is_consumer o = true) cs.

(** The sockets the calls create, in order. *)
Definition created (calls : list Effect) : list nat :=
  flat_map (fun e => match e with WsCreate c _ _ => [c] | _ => [] end) calls.

(** Events whose callbacks assign no field: frames, transport errors, and
    the two callbacks of [loggedOut()]. *)
Definition is_passive (ev : Event) : bool :=
  match ev with
  | Message _ | WsError _ | LoggedOut | LoggedOutError _ => true
  | _ => false
  end.

(** The answer to the request for [/api/v1/notifications_url]: [resp.ok]
    with the [notificationsUrl] member of its body, or the status and the
    text of the body. *)
Inductive UrlResponse :=
| UrlOk (notificationsUrl : string)
| UrlNotOk (status : N) (text : string).

(** The [concatMap] of lines 76-84: the address, or the [Error] thrown,
    whose message is [resp.status + ' ' + body]; [stack] is the stack the
    engine gives the error. *)
Definition notificationsUrl (resp : UrlResponse) (stack : option string)
  : string + Error :=
  match resp with
  | UrlOk u => inl u
  | UrlNotOk status text =>
      inr {| err_message := pretty status +:+ " " +:+ text; err_stack := stack |}
  end.

(** The sockets the browser has been asked to connect: the [WebSocket] is
    created when the subject is subscribed to (line 169).  A connection
    lasts until its close event.  [complete()] does not end it at once: on a
    socket that has opened it starts the closing handshake, on a socket that
    has not opened yet it only completes the buffer of frames to send, and
    the socket is closed after it has opened.  So in a run without close
    events every socket listed here is a live connection. *)
Definition connected (calls : list Effect) : list nat :=
  flat_map (fun e => match e with WsSubscribe c => [c] | _ => [] end) calls.

End Channel.

(** ** Sample parameters *)

(** A numbering of [CloseStatus] by web socket close codes. *)
Definition sample_codes (c : CloseStatus) : Z :=
  match c with
  | LOGGED_OUT => 1000
  | PROTOCOL_FAILURE => 1002
  | INTERNAL_ERROR => 1011
  | UNKNOWN => -1
  end.

(** A table with a complete entry, an entry without [body], and an entry
    that has a [title] and a [body] but no [variant]. *)
Definition sample_keys : list (string * @NotificationMessageMapper string) :=
  [ ("WsClientActivity",
     {| title := "WebSocket Client Activity";
        body := Some (fun m => message m +:+ " changed");
        variant := Some info;
        hidden := Some true |});
    ("LostTargetJvm",
     {| title := "Lost Target JVM";
        body := None;
        variant := Some warning;
        hidden := None |});
    ("ProbeTemplateUploaded",
     {| title := "Probe Template Created";
        body := Some (fun m => message m +:+ " was uploaded");
        variant := None;
        hidden := None |}) ].

Definition sample_category (nm : string) : option string :=
  if messageKeys_has sample_keys nm then Some nm else None.

Definition sample_stringify (s : string) : string :=
  String (ascii_of_nat 34) s +:+ String (ascii_of_nat 34) "".

Definition sample_parts : Parts :=
  {| url := "wss://x";
     token := "abc";
     authMethod := BEARER;
     sessionState := CREATING_USER_SESSION;
     tick := 0 |}.

Definition sample_idle_parts : Parts :=
  {| url := "wss://x";
     token := "abc";
     authMethod := BEARER;
     sessionState := USER_SESSION;
     tick := 1 |}.

(** The sample tuple at a later tick. *)
Definition sample_parts_at (n : nat) : Parts :=
  {| url := "wss://x";
     token := "abc";
     authMethod := BEARER;
     sessionState := CREATING_USER_SESSION;
     tick := n |}.

(** ** Properties of the channel *)

Section Properties.

Context {Payload : Type}.
Variable messageKeys : list (string * @NotificationMessageMapper Payload).
Variable NotificationCategory : string -> option string.
Variable CloseStatus_value : CloseStatus -> Z.
Variable JSON_stringify : string -> string.

Local Abbreviation closeObserver_next :=
  (@closeObserver_next Payload CloseStatus_value).
Local Abbreviation close_outcome := (close_outcome CloseStatus_value).
Local Abbreviation step :=
  (step messageKeys NotificationCategory CloseStatus_value JSON_stringify).
Local Abbreviation run :=
  (run messageKeys NotificationCategory CloseStatus_value JSON_stringify).
Local Abbreviation constructor := (constructor messageKeys).
Local Abbreviation messages_next := (messages_next messageKeys NotificationCategory).
Local Abbreviation observer_next := (observer_next messageKeys NotificationCategory).
Local Abbreviation registered_observers := (registered_observers messageKeys).
Local Abbreviation observers_shape := (observers_shape messageKeys).
Local Abbreviation messageKeys_has := (messageKeys_has messageKeys).
Local Abbreviation Channel := (@Channel Payload).
Local Abbreviation Event := (@Event Payload).
Local Abbreviation Effect := (@Effect Payload).
Local Abbreviation Observer := (@Observer Payload).
Local Abbreviation NotificationMessage := (@NotificationMessage Payload).
Local Abbreviation NotificationMessageMapper := (@NotificationMessageMapper Payload).

Local Ltac run_action :=
  cbv [NotificationChannel.closeObserver_next NotificationChannel.openObserver_next
       ready_next andThen call modify skip logError loggedOut_next
       subscribe unsubscribe upstream_error]; cbn [app fst snd].

(** *** The close observer *)

Section CloseSwitch.

(** The three [case] labels of the close [switch] are different numbers. *)
Hypothesis case_labels_NoDup :
  NoDup [CloseStatus_value LOGGED_OUT;
         CloseStatus_value PROTOCOL_FAILURE;
         CloseStatus_value INTERNAL_ERROR].

Lemma case_labels_distinct :
  CloseStatus_value LOGGED_OUT <> CloseStatus_value PROTOCOL_FAILURE /\
  CloseStatus_value LOGGED_OUT <> CloseStatus_value INTERNAL_ERROR /\
  CloseStatus_value PROTOCOL_FAILURE <> CloseStatus_value INTERNAL_ERROR.
Proof using case_labels_NoDup.
  pose proof case_labels_NoDup as H.
  apply NoDup_cons in H as [H1 H].
  apply NoDup_cons in H as [H2 _].
  apply not_elem_of_cons in H1 as [H1 H1'].
  apply not_elem_of_cons in H1' as [H1' _].
  apply not_elem_of_cons in H2 as [H2 _].
  auto.
Qed.

(** C1. A close event falls in exactly one of four classes by its code, and
    the readiness written, the session state written back, the alert
    function and the detail line are those of the table: logged out,
    protocol failure, internal error, anything else. *)
Theorem close_classification (st : Channel) (evt_code : Z) :
  (evt_code = CloseStatus_value LOGGED_OUT ->
   close_outcome st evt_code LOGGED_OUT NO_USER_SESSION fn_info
     (Some "Logout success") true) /\
  (evt_code = CloseStatus_value PROTOCOL_FAILURE ->
   close_outcome st evt_code PROTOCOL_FAILURE NO_USER_SESSION fn_danger
     (Some "Authentication failed") false) /\
  (evt_code = CloseStatus_value INTERNAL_ERROR ->
   close_outcome st evt_code INTERNAL_ERROR CREATING_USER_SESSION fn_danger
     (Some "Internal server error") false) /\
  (evt_code <> CloseStatus_value LOGGED_OUT ->
   evt_code <> CloseStatus_value PROTOCOL_FAILURE ->
   evt_code <> CloseStatus_value INTERNAL_ERROR ->
   close_outcome st evt_code UNKNOWN CREATING_USER_SESSION fn_info None true).
Proof using case_labels_NoDup.
  destruct case_labels_distinct as (Hlp & Hli & Hpi).
  unfold close_outcome, NotificationChannel.closeObserver_next, close_switch.
  repeat split; intros; subst;
    repeat match goal with
           | |- context [Z.eqb ?a ?b] => destruct (Z.eqb_spec a b); try congruence
           end;
    reflexivity.
Qed.

End CloseSwitch.

(** A tuple whose session state is not [CREATING_USER_SESSION] leaves the
    fields alone and makes no call. *)
Lemma reconcile_noop (st : Channel) (parts : Parts) :
  sessionState parts <> CREATING_USER_SESSION ->
  reconcile parts st = (st, []).
Proof.
  intros Hs. unfold reconcile.
  rewrite bool_decide_eq_true_2 by exact Hs. reflexivity.
Qed.

(** What [reconcile] does for a tuple in [CREATING_USER_SESSION]. *)
Lemma reconcile_creating (st : Channel) (parts : Parts) :
  sessionState parts = CREATING_USER_SESSION ->
  reconcile parts st =
    (set_ws (Some (sockets st)) (set_sockets (S (sockets st)) st),
     match ws st with Some old => [WsComplete old] | None => [] end ++
     [WsCreate (sockets st) (url parts)
        (subprotocol_of (authMethod parts) (token parts));
      WsSubscribe (sockets st);
      WsSend (sockets st) "connect"]).
Proof.
  intros Hs. unfold reconcile.
  rewrite bool_decide_eq_false_2 by (rewrite Hs; tauto). reflexivity.
Qed.

(** Only [reconcile] creates sockets, and only in [CREATING_USER_SESSION]. *)
Lemma create_only_when_creating (st : Channel) (ev : Event) c u p :
  In (WsCreate c u p) (snd (step ev st)) ->
  exists parts, ev = Upstream parts /\ sessionState parts = CREATING_USER_SESSION.
Proof.
  destruct ev as [parts|err| |evt_code|v|err| |err|category|id]; cbn [NotificationChannel.step].
  - intros Hin. exists parts. split; [reflexivity|].
    destruct (decide (sessionState parts = CREATING_USER_SESSION)) as [|Hne]; [assumption|].
    exfalso. revert Hin. unfold upstream_next.
    destruct (upstream_stopped st); [intros []|].
    destruct (previous st) as [q|]; [destruct (isEqual q parts); [intros []|]|];
      rewrite reconcile_noop by assumption; intros [].
  - unfold upstream_error. destruct (upstream_stopped st); [intros []|].
    run_action. destruct (err_stack err); cbn; intuition discriminate.
  - run_action. cbn. intuition discriminate.
  - unfold NotificationChannel.closeObserver_next.
    destruct (close_switch CloseStatus_value evt_code) as [[[k m] fn] s].
    run_action. cbn. intuition discriminate.
  - unfold NotificationChannel.messages_next. cbn [snd].
    rewrite in_flat_map. intros (o & _ & Hin). revert Hin.
    destruct o as [k value| |i cat]; cbn [NotificationChannel.observer_next].
    + destruct (String.eqb _ _); [|intros []].
      destruct (body value), (variant value); cbn; intuition discriminate.
    + destruct (negb _); cbn; intuition discriminate.
    + destruct (String.eqb _ _); cbn; intuition discriminate.
  - run_action. destruct (err_stack err); cbn; intuition discriminate.
  - run_action. destruct (ws st); cbn; intuition discriminate.
  - run_action. destruct (err_stack err); cbn; intuition discriminate.
  - run_action. intros [].
  - run_action. intros [].
Qed.

(** C3. A tuple whose session state is not [CREATING_USER_SESSION] is a
    no-op for [reconcile]: the fields are as before and no call is made, so
    no socket is created, none is completed, and neither the readiness nor
    the session state is written.  Through the deduplicating gate only the
    remembered tuple can change.  Conversely, whatever the event, a socket
    is created only by a tuple in [CREATING_USER_SESSION]. *)
Theorem reconcile_only_when_creating :
  (forall (st : Channel) (parts : Parts),
      sessionState parts <> CREATING_USER_SESSION ->
      reconcile parts st = (st, []) /\
      snd (step (Upstream parts) st) = [] /\
      ws (fst (step (Upstream parts) st)) = ws st /\
      _ready (fst (step (Upstream parts) st)) = _ready st /\
      sockets (fst (step (Upstream parts) st)) = sockets st) /\
  (forall (st : Channel) (ev : Event) c u p,
      In (WsCreate c u p) (snd (step ev st)) ->
      exists parts,
        ev = Upstream parts /\ sessionState parts = CREATING_USER_SESSION).
Proof.
  split.
  - intros st parts Hs. split; [apply reconcile_noop; assumption|].
    cbn [NotificationChannel.step]. unfold upstream_next.
    destruct (upstream_stopped st); [repeat split|].
    destruct (previous st) as [q|]; [destruct (isEqual q parts); [repeat split|]|];
      rewrite reconcile_noop by assumption; repeat split.
  - apply create_only_when_creating.
Qed.

(** C4. For a tuple in [CREATING_USER_SESSION] the socket is created on the
    tuple's address with the subprotocol
    [base64url.bearer.authorization.cryostat.<token>] for BEARER,
    [basic.authorization.cryostat.<token>] for BASIC and none otherwise; the
    open event writes [{ready: true}] to the readiness subject and
    [USER_SESSION] to the login service. *)
Theorem open_with_subprotocol (st : Channel) (parts : Parts) :
  sessionState parts = CREATING_USER_SESSION ->
  (exists completed protocol,
      snd (reconcile parts st) =
        completed ++ [WsCreate (sockets st) (url parts) protocol;
                      WsSubscribe (sockets st);
                      WsSend (sockets st) "connect"] /\
      Forall (fun e => exists old, e = WsComplete old) completed /\
      (authMethod parts = BEARER ->
       protocol = Some ("base64url.bearer.authorization.cryostat." +:+ token parts)) /\
      (authMethod parts = BASIC ->
       protocol = Some ("basic.authorization.cryostat." +:+ token parts)) /\
      (authMethod parts = NONE -> protocol = None)) /\
  step Open st =
    (set_ready {| ready := true; code := None |} st,
     [ReadyNext {| ready := true; code := None |}; SetSessionState USER_SESSION]).
Proof.
  intros Hs. split; [|reflexivity].
  rewrite reconcile_creating by assumption. cbn [snd].
  exists (match ws st with Some old => [WsComplete old] | None => [] end),
         (subprotocol_of (authMethod parts) (token parts)).
  split; [reflexivity|]. split.
  - destruct (ws st) as [old|]; [|constructor].
    constructor; [exists old; reflexivity|constructor].
  - repeat split; intros ->; reflexivity.
Qed.

(** Events other than tuples leave the memory of the gate alone. *)
Lemma step_previous (st : Channel) (ev : Event) :
  is_upstream ev = false -> previous (fst (step ev st)) = previous st.
Proof.
  destruct ev as [parts|err| |evt_code|v|err| |err|category|id];
    cbn [is_upstream NotificationChannel.step]; intros H; try discriminate H.
  - unfold upstream_error. destruct (upstream_stopped st); [reflexivity|].
    run_action. destruct (err_stack err); reflexivity.
  - reflexivity.
  - unfold NotificationChannel.closeObserver_next.
    destruct (close_switch CloseStatus_value evt_code) as [[[k m] fn] s]. reflexivity.
  - reflexivity.
  - run_action. destruct (err_stack err); reflexivity.
  - run_action. destruct (ws st); reflexivity.
  - run_action. destruct (err_stack err); reflexivity.
  - reflexivity.
  - reflexivity.
Qed.

Lemma run_cons (ev : Event) (evs : list Event) (st : Channel) :
  run (ev :: evs) st =
    (fst (run evs (fst (step ev st))),
     snd (step ev st) ++ snd (run evs (fst (step ev st)))).
Proof.
  cbn [NotificationChannel.run]. unfold andThen.
  destruct (step ev st) as [st1 e1]. cbn [fst snd].
  destruct (run evs st1) as [st2 e2]. reflexivity.
Qed.

Lemma run_previous (evs : list Event) (st : Channel) :
  Forall (fun ev => is_upstream ev = false) evs ->
  previous (fst (run evs st)) = previous st.
Proof.
  intros H. revert st. induction H as [|ev evs Hev _ IH]; intros st; [reflexivity|].
  rewrite run_cons. cbn [fst]. rewrite IH. apply step_previous. assumption.
Qed.

(** A tuple equal to the one remembered by the gate is dropped. *)
Lemma upstream_repeat (st : Channel) (parts : Parts) :
  previous st = Some parts -> upstream_next parts st = (st, []).
Proof.
  intros Hp. unfold upstream_next. rewrite Hp.
  unfold isEqual. rewrite bool_decide_eq_true_2 by reflexivity.
  destruct (upstream_stopped st); reflexivity.
Qed.

(** After a tuple went through the gate, it is the one remembered, unless
    the stream has stopped. *)
Lemma upstream_remembers (st : Channel) (parts : Parts) :
  upstream_stopped st = false ->
  previous (fst (upstream_next parts st)) = Some parts.
Proof.
  intros Hu. unfold upstream_next. rewrite Hu.
  assert (Hr : forall st' : Channel, previous st' = Some parts ->
                           previous (fst (reconcile parts st')) = Some parts).
  { intros st' Hp. unfold reconcile. destruct (bool_decide _); exact Hp. }
  destruct (previous st) as [q|] eqn:Hq.
  - unfold isEqual. destruct (bool_decide_reflect (q = parts)) as [->|_].
    + exact Hq.
    + apply Hr. reflexivity.
  - apply Hr. reflexivity.
Qed.

Lemma upstream_attempts (st : Channel) (parts : Parts) :
  connection_attempts (snd (upstream_next parts st)) <= 1.
Proof.
  unfold upstream_next.
  assert (Hr : forall st' : Channel, connection_attempts (snd (reconcile parts st')) <= 1).
  { intros st'. unfold reconcile. destruct (bool_decide _); [cbn; lia|].
    destruct (ws st'); cbn; lia. }
  destruct (upstream_stopped st); [cbn; lia|].
  destruct (previous st) as [q|]; [destruct (isEqual q parts); [cbn; lia|]|]; apply Hr.
Qed.

Lemma upstream_stopped_noop (st : Channel) (parts : Parts) :
  upstream_stopped st = true -> upstream_next parts st = (st, []).
Proof. intros Hu. unfold upstream_next. rewrite Hu. reflexivity. Qed.

Lemma step_stopped (st : Channel) (ev : Event) :
  upstream_stopped st = true -> upstream_stopped (fst (step ev st)) = true.
Proof.
  intros Hu.
  destruct ev as [parts|err| |evt_code|v|err| |err|category|id];
    cbn [NotificationChannel.step].
  - rewrite upstream_stopped_noop by assumption. assumption.
  - unfold upstream_error. rewrite Hu. assumption.
  - assumption.
  - unfold NotificationChannel.closeObserver_next.
    destruct (close_switch CloseStatus_value evt_code) as [[[k m] fn] s]. assumption.
  - assumption.
  - run_action. destruct (err_stack err); assumption.
  - run_action. destruct (ws st); assumption.
  - run_action. destruct (err_stack err); assumption.
  - assumption.
  - assumption.
Qed.

Lemma run_stopped (evs : list Event) (st : Channel) :
  upstream_stopped st = true -> upstream_stopped (fst (run evs st)) = true.
Proof.
  revert st. induction evs as [|ev evs IH]; intros st Hu; [assumption|].
  rewrite run_cons. cbn [fst]. apply IH, step_stopped, Hu.
Qed.

(** C7. The same tuple submitted twice in a row goes through the gate at
    most once: the second submission leaves the fields alone and makes no
    call, so both together create at most one socket; this stays so when
    events that are not tuples (open, close, frames, logout, subscriptions)
    come between the two. *)
Theorem duplicate_tuple_suppressed (st : Channel) (parts : Parts) :
  let first := step (Upstream parts) st in
  step (Upstream parts) (fst first) = (fst first, []) /\
  connection_attempts
    (snd first ++ snd (step (Upstream parts) (fst first))) <= 1 /\
  (forall evs : list Event,
      Forall (fun ev => is_upstream ev = false) evs ->
      let between := run evs (fst first) in
      step (Upstream parts) (fst between) = (fst between, [])).
Proof.
  cbn zeta. cbn [NotificationChannel.step].
  assert (Hsecond : forall evs : list Event,
             Forall (fun ev => is_upstream ev = false) evs ->
             upstream_next parts (fst (run evs (fst (upstream_next parts st)))) =
               (fst (run evs (fst (upstream_next parts st))), [])).
  { intros evs Hevs.
    destruct (upstream_stopped st) eqn:Hu.
    - apply upstream_stopped_noop, run_stopped.
      rewrite upstream_stopped_noop by assumption. assumption.
    - apply upstream_repeat. rewrite run_previous by assumption.
      apply upstream_remembers. assumption. }
  pose proof (Hsecond [] (Forall_nil_2 _)) as H0. cbn [NotificationChannel.run skip fst] in H0.
  split; [exact H0|]. split; [|exact Hsecond].
  rewrite H0. cbn [snd]. rewrite app_nil_r. apply upstream_attempts.
Qed.

(** A frame makes the observers call [notify] and the consumers, nothing
    else. *)
Lemma messages_next_calls (st : Channel) (v : NotificationMessage) (e : Effect) :
  In e (snd (messages_next v st)) ->
  (exists n, e = Notify n) \/ (exists i, e = Deliver i v).
Proof.
  unfold NotificationChannel.messages_next. cbn [snd].
  rewrite in_flat_map. intros (o & _ & Hin). revert Hin.
  destruct o as [k value| |i cat]; cbn [NotificationChannel.observer_next].
  - destruct (String.eqb _ _); [|intros []].
    destruct (body value), (variant value); cbn; intros H;
      try contradiction.
    destruct H as [<-|[]]. left. eexists. reflexivity.
  - destruct (negb _); cbn; [|intros []].
    intros [<-|[]]. left. eexists. reflexivity.
  - destruct (String.eqb _ _); cbn; [|intros []].
    intros [<-|[]]. right. eexists. reflexivity.
Qed.

(** Only the open and close observers write the readiness subject. *)
Lemma step_ready (st : Channel) (ev : Event) :
  is_open_or_close ev = false ->
  _ready (fst (step ev st)) = _ready st /\
  forall r, ~ In (ReadyNext r) (snd (step ev st)).
Proof.
  destruct ev as [parts|err| |evt_code|v|err| |err|category|id];
    cbn [is_open_or_close NotificationChannel.step]; intros H; try discriminate H.
  - unfold upstream_next, reconcile.
    destruct (upstream_stopped st); [split; [reflexivity|intros r []]|].
    destruct (previous st) as [q|]; [destruct (isEqual q parts); [split; [reflexivity|intros r []]|]|];
      (destruct (bool_decide _); cbn [fst snd]; [split; [reflexivity|intros r []]|]);
      (split; [reflexivity|]); cbn [ws set_previous];
      destruct (ws st); cbn; intuition discriminate.
  - unfold upstream_error. destruct (upstream_stopped st); [split; [reflexivity|intros r []]|].
    run_action. destruct (err_stack err); cbn; intuition discriminate.
  - split; [reflexivity|]. intros r Hin.
    apply messages_next_calls in Hin as [[n Hn]|[i Hi]]; discriminate.
  - run_action. destruct (err_stack err); cbn; intuition discriminate.
  - run_action. destruct (ws st); cbn; intuition discriminate.
  - run_action. destruct (err_stack err); cbn; intuition discriminate.
  - run_action. cbn. intuition.
  - run_action. cbn. intuition.
Qed.

(** What the close observer does, whatever the code. *)
Lemma close_calls (st : Channel) (evt_code : Z) :
  exists c s fn detail,
    step (Close evt_code) st =
      (set_ready {| ready := false; code := Some c |} st,
       [ReadyNext {| ready := false; code := Some c |};
        SetSessionState s;
        Alert fn "WebSocket connection lost" detail (Some "WsClientActivity")
          (Some (bool_decide (fn = fn_info)))]).
Proof.
  cbn [NotificationChannel.step]. unfold NotificationChannel.closeObserver_next.
  destruct (close_switch CloseStatus_value evt_code) as [[[c detail] fn] s].
  exists c, s, fn, detail. reflexivity.
Qed.

(** C8. The readiness subject is told [ready = true] by the open observer
    only, and the current value becomes ready on an open event only.  On a
    close event the first call is [_ready.next({ready: false, code})] with a
    reason code, the current value is that one, and every call on the
    notification service, the [WebSocket connection lost] alert among them,
    comes after it. *)
Theorem readiness_transitions :
  (forall (st : Channel) (ev : Event) r,
      In (ReadyNext r) (snd (step ev st)) -> ready r = true -> ev = Open) /\
  (forall (st : Channel) (ev : Event),
      ready (_ready (fst (step ev st))) = true ->
      ready (_ready st) = true \/ ev = Open) /\
  (forall (st : Channel) (evt_code : Z),
      exists c rest,
        snd (step (Close evt_code) st) =
          ReadyNext {| ready := false; code := Some c |} :: rest /\
        _ready (fst (step (Close evt_code) st)) =
          {| ready := false; code := Some c |} /\
        (exists fn detail category autoDismiss,
            In (Alert fn "WebSocket connection lost" detail category autoDismiss)
               rest) /\
        (forall pre e post,
            snd (step (Close evt_code) st) = pre ++ e :: post ->
            is_notification e = true ->
            In (ReadyNext {| ready := false; code := Some c |}) pre)).
Proof.
  split; [|split].
  - intros st ev r Hin Hr.
    destruct (is_open_or_close ev) eqn:Hev.
    + destruct ev; try discriminate Hev; [reflexivity|].
      destruct (close_calls st evt_code) as (c & s & fn & detail & Heq).
      rewrite Heq in Hin. cbn in Hin.
      destruct Hin as [Hin|[Hin|[Hin|[]]]]; try discriminate Hin.
      injection Hin as <-. discriminate Hr.
    + exfalso. exact (proj2 (step_ready st ev Hev) r Hin).
  - intros st ev Hr.
    destruct (is_open_or_close ev) eqn:Hev.
    + destruct ev; try discriminate Hev; [right; reflexivity|].
      destruct (close_calls st evt_code) as (c & s & fn & detail & Heq).
      rewrite Heq in Hr. discriminate Hr.
    + left. rewrite <- (proj1 (step_ready st ev Hev)). exact Hr.
  - intros st evt_code.
    destruct (close_calls st evt_code) as (c & s & fn & detail & Heq).
    rewrite Heq. cbn [fst snd].
    exists c. eexists. split; [reflexivity|]. split; [reflexivity|]. split.
    + exists fn, detail, (Some "WsClientActivity"), (Some (bool_decide (fn = fn_info))).
      right. left. reflexivity.
    + intros pre e post Hsplit Hnot.
      destruct pre as [|e0 pre]; cbn in Hsplit.
      * injection Hsplit as <- _. discriminate Hnot.
      * injection Hsplit as <- _. left. reflexivity.
Qed.

Lemma run_ready (evs : list Event) (st : Channel) :
  Forall (fun ev => is_open_or_close ev = false) evs ->
  _ready (fst (run evs st)) = _ready st.
Proof.
  intros H. revert st. induction H as [|ev evs Hev _ IH]; intros st; [reflexivity|].
  rewrite run_cons. cbn [fst]. rewrite IH. apply step_ready. assumption.
Qed.

(** C10. The readiness subject starts at [{ready: false}] without a code,
    and as long as no open and no close event has occurred that is still
    its current value, which [isReady()] replays to a new observer. *)
Theorem initial_readiness :
  _ready constructor = {| ready := false; code := None |} /\
  (forall evs : list Event,
      Forall (fun ev => is_open_or_close ev = false) evs ->
      isReady_replay (fst (run evs constructor)) =
        {| ready := false; code := None |}).
Proof.
  split; [reflexivity|].
  intros evs Hevs. unfold isReady_replay. rewrite run_ready by assumption.
  reflexivity.
Qed.

(** *** One socket at a time *)

Lemma prefix_cons_cases {A} (x : A) (pre l : list A) :
  pre `prefix_of` x :: l ->
  pre = [] \/ exists pre', pre = x :: pre' /\ pre' `prefix_of` l.
Proof.
  intros [k Hk]. destruct pre as [|y pre]; [left; reflexivity|right].
  cbn in Hk. injection Hk as -> ->. exists pre. split; [reflexivity|].
  exists k. reflexivity.
Qed.

Lemma prefix_app_cases {A} (pre l1 l2 : list A) :
  pre `prefix_of` l1 ++ l2 ->
  pre `prefix_of` l1 \/ exists pre', pre = l1 ++ pre' /\ pre' `prefix_of` l2.
Proof.
  revert pre. induction l1 as [|x l1 IH]; intros pre Hpre.
  - right. exists pre. split; [reflexivity|exact Hpre].
  - cbn in Hpre. apply prefix_cons_cases in Hpre as [->|(pre' & -> & Hpre)].
    + left. apply prefix_nil.
    + destruct (IH _ Hpre) as [Hl|(pre'' & -> & Hr)].
      * left. apply prefix_cons. exact Hl.
      * right. exists pre''. split; [reflexivity|exact Hr].
Qed.

Lemma fold_quiet (calls : list Effect) (conns : list nat) :
  Forall (fun e => changes_sockets e = false) calls ->
  fold_left after_call calls conns = conns.
Proof.
  induction 1 as [|e calls He _ IH]; [reflexivity|].
  cbn [fold_left]. rewrite <- IH at 2. f_equal.
  destruct e; try discriminate He; reflexivity.
Qed.

Lemma quiet_prefix (pre calls : list Effect) :
  pre `prefix_of` calls ->
  Forall (fun e => changes_sockets e = false) calls ->
  Forall (fun e => changes_sockets e = false) pre.
Proof. intros [k ->] H. apply Forall_app in H. tauto. Qed.

(** Events other than tuples and logout neither touch the handle nor make
    a call on a socket. *)
Lemma step_quiet (st : Channel) (ev : Event) :
  is_upstream ev = false -> is_logout ev = false ->
  ws (fst (step ev st)) = ws st /\
  sockets (fst (step ev st)) = sockets st /\
  Forall (fun e => changes_sockets e = false) (snd (step ev st)).
Proof.
  destruct ev as [parts|err| |evt_code|v|err| |err|category|id];
    cbn [is_upstream is_logout NotificationChannel.step]; intros H Hl;
    try discriminate H; try discriminate Hl.
  - unfold upstream_error. destruct (upstream_stopped st); [repeat split; constructor|].
    run_action. destruct (err_stack err); repeat split; repeat constructor.
  - run_action. repeat split; repeat constructor.
  - destruct (close_calls st evt_code) as (c & s & fn & detail & Heq).
    cbn [NotificationChannel.step] in Heq. rewrite Heq.
    repeat split; repeat constructor.
  - repeat split. apply Forall_forall. intros e He.
    apply list_elem_of_In, messages_next_calls in He as [[n ->]|[i ->]]; reflexivity.
  - run_action. destruct (err_stack err); repeat split; repeat constructor.
  - run_action. destruct (err_stack err); repeat split; repeat constructor.
  - run_action. repeat split; constructor.
  - run_action. repeat split; constructor.
Qed.

Lemma tracks_length (st : Channel) (conns : list nat) :
  tracks st conns -> length conns <= 1.
Proof. intros [->|(c & _ & ->)]; cbn; lia. Qed.

Lemma filter_self (c : nat) : List.filter (fun x => negb (Nat.eqb x c)) [c] = [].
Proof. cbn. rewrite Nat.eqb_refl. reflexivity. Qed.

Local Ltac prefixes H :=
  repeat (apply prefix_cons_cases in H as [->|(? & -> & H)]);
  try (apply prefix_nil_inv in H as ->).

(** One event keeps the handle in step with the sockets that exist, and at
    no point during the event are there two. *)
Lemma step_single (st : Channel) (ev : Event) (conns : list nat) :
  tracks st conns ->
  tracks (fst (step ev st)) (fold_left after_call (snd (step ev st)) conns) /\
  forall pre, pre `prefix_of` snd (step ev st) ->
              length (fold_left after_call pre conns) <= 1.
Proof.
  intros Ht. pose proof (tracks_length _ _ Ht) as Hlen.
  destruct (is_upstream ev) eqn:Hup;
    [|destruct (is_logout ev) eqn:Hl; [destruct ev; try discriminate Hl|]].
  - destruct ev as [parts| | | | | | | | |]; try discriminate Hup.
    cbn [NotificationChannel.step]. unfold upstream_next.
    assert (Hkeep : forall st' : Channel, ws st' = ws st -> tracks st' conns).
    { intros st' Hw. destruct Ht as [->|(c & Hc & ->)]; [left; reflexivity|].
      right. exists c. rewrite Hw. tauto. }
    assert (Hr : forall st' : Channel, ws st' = ws st ->
               tracks (fst (reconcile parts st'))
                 (fold_left after_call (snd (reconcile parts st')) conns) /\
               forall pre, pre `prefix_of` snd (reconcile parts st') ->
                           length (fold_left after_call pre conns) <= 1).
    { intros st' Hw. unfold reconcile. destruct (bool_decide _); cbn [fst snd].
      - split; [apply Hkeep; assumption|].
        intros pre Hpre. apply prefix_nil_inv in Hpre as ->. exact Hlen.
      - rewrite Hw. destruct (ws st) as [old|] eqn:Hws.
        + assert (Hfilter : List.filter (fun x => negb (Nat.eqb x old)) conns = []).
          { destruct Ht as [->|(c & Hc & ->)]; [reflexivity|].
            rewrite Hws in Hc. injection Hc as <-. apply filter_self. }
          split.
          * cbn. rewrite Hfilter. right. eexists. split; reflexivity.
          * intros pre Hpre. cbn in Hpre. prefixes Hpre; cbn; rewrite ?Hfilter; cbn; lia.
        + assert (conns = []) as ->.
          { destruct Ht as [->|(c & Hc & _)]; [reflexivity|rewrite Hws in Hc; discriminate Hc]. }
          split.
          * cbn. right. eexists. split; reflexivity.
          * intros pre Hpre. cbn in Hpre. prefixes Hpre; cbn; lia. }
    assert (Hnone : tracks st conns /\
                    forall pre : list Effect, pre `prefix_of` [] ->
                                length (fold_left after_call pre conns) <= 1).
    { split; [exact Ht|]. intros pre Hpre. apply prefix_nil_inv in Hpre as ->. exact Hlen. }
    destruct (upstream_stopped st); [exact Hnone|].
    destruct (previous st) as [q|]; [destruct (isEqual q parts); [exact Hnone|]|];
      apply Hr; reflexivity.
  - cbn [NotificationChannel.step]. unfold loggedOut_next.
    destruct (ws st) as [c|] eqn:Hws; cbn [fst snd].
    + assert (Hfilter : List.filter (fun x => negb (Nat.eqb x c)) conns = []).
      { destruct Ht as [->|(c' & Hc & ->)]; [reflexivity|].
        rewrite Hws in Hc. injection Hc as <-. apply filter_self. }
      split.
      * cbn. rewrite Hfilter. left. reflexivity.
      * intros pre Hpre. prefixes Hpre; cbn; rewrite ?Hfilter; cbn; lia.
    + split; [exact Ht|]. intros pre Hpre. apply prefix_nil_inv in Hpre as ->. exact Hlen.
  - destruct (step_quiet st ev Hup Hl) as (Hws & _ & Hq). split.
    + rewrite fold_quiet by exact Hq.
      destruct Ht as [->|(c & Hc & ->)]; [left; reflexivity|].
      right. exists c. rewrite Hws. tauto.
    + intros pre Hpre. rewrite fold_quiet by (eapply quiet_prefix; eassumption).
      exact Hlen.
Qed.

Lemma run_single (evs : list Event) (st : Channel) (conns : list nat) :
  tracks st conns ->
  forall pre, pre `prefix_of` snd (run evs st) ->
              length (fold_left after_call pre conns) <= 1.
Proof.
  revert st conns. induction evs as [|ev evs IH]; intros st conns Ht pre Hpre.
  - apply prefix_nil_inv in Hpre as ->. apply (tracks_length st). exact Ht.
  - rewrite run_cons in Hpre. cbn [snd] in Hpre.
    destruct (step_single st ev conns Ht) as [Ht' Hstep].
    apply prefix_app_cases in Hpre as [Hpre|(pre' & -> & Hpre)].
    + apply Hstep. exact Hpre.
    + rewrite fold_left_app. eapply IH; eassumption.
Qed.

Lemma step_fresh (st : Channel) (ev : Event) :
  fresh st -> fresh (fst (step ev st)).
Proof.
  intros Hf.
  destruct (is_upstream ev) eqn:Hup;
    [|destruct (is_logout ev) eqn:Hl; [destruct ev; try discriminate Hl|]].
  - destruct ev as [parts| | | | | | | | |]; try discriminate Hup.
    cbn [NotificationChannel.step]. unfold upstream_next.
    assert (Hr : forall st' : Channel, fresh st' -> fresh (fst (reconcile parts st'))).
    { intros st' Hf'. unfold reconcile. destruct (bool_decide _); [exact Hf'|].
      intros c Hc. cbn in Hc. injection Hc as <-. cbn. lia. }
    destruct (upstream_stopped st); [exact Hf|].
    destruct (previous st) as [q|]; [destruct (isEqual q parts); [exact Hf|]|];
      apply Hr; exact Hf.
  - cbn [NotificationChannel.step]. unfold loggedOut_next.
    destruct (ws st); exact Hf.
  - destruct (step_quiet st ev Hup Hl) as (Hws & Hs & _).
    intros c Hc. rewrite Hs. apply Hf. rewrite <- Hws. exact Hc.
Qed.

Lemma run_fresh (evs : list Event) (st : Channel) :
  fresh st -> fresh (fst (run evs st)).
Proof.
  revert st. induction evs as [|ev evs IH]; intros st Hf; [exact Hf|].
  rewrite run_cons. cbn [fst]. apply IH, step_fresh, Hf.
Qed.

(** C2, as the code has it.  Whatever events the channel has handled since
    its construction, at every point of the sequence of calls it made at
    most one socket has been created and not yet been completed; and when a
    tuple makes [reconcile] create a socket while the handle refers to an
    earlier one, [complete()] is called on the earlier one first and the new
    socket is a different one, which the handle then refers to.  This is
    the order of the calls: the channel does not wait for the earlier
    connection to close. *)
Theorem single_connection (evs : list Event) :
  (forall pre, pre `prefix_of` snd (run evs constructor) ->
               length (open_sockets pre) <= 1) /\
  (forall (parts : Parts) (old : nat),
      ws (fst (run evs constructor)) = Some old ->
      sessionState parts = CREATING_USER_SESSION ->
      exists new protocol,
        new <> old /\
        snd (reconcile parts (fst (run evs constructor))) =
          [WsComplete old; WsCreate new (url parts) protocol;
           WsSubscribe new; WsSend new "connect"] /\
        ws (fst (reconcile parts (fst (run evs constructor)))) = Some new).
Proof.
  split.
  - intros pre Hpre. unfold open_sockets.
    eapply run_single; [|exact Hpre]. left. reflexivity.
  - intros parts old Hws Hs.
    assert (Hf : fresh (fst (run evs constructor))).
    { apply run_fresh. intros c Hc. discriminate Hc. }
    rewrite reconcile_creating by assumption. rewrite Hws. cbn [fst snd app].
    eexists. eexists. split; [|split; reflexivity].
    specialize (Hf old Hws). lia.
Qed.

(** *** The message distributor *)

Lemma messageKeys_has_In (k : string) :
  messageKeys_has k = true <-> In k (map fst messageKeys).
Proof.
  unfold NotificationChannel.messageKeys_has. rewrite existsb_exists, in_map_iff.
  split.
  - intros (kv & Hin & Heq). apply String.eqb_eq in Heq. eauto.
  - intros (kv & Heq & Hin). exists kv. split; [exact Hin|].
    apply String.eqb_eq. exact Heq.
Qed.

Lemma notifications_app (a b : list Effect) :
  notifications (a ++ b) = notifications a ++ notifications b.
Proof. apply flat_map_app. Qed.

Lemma deliveries_app (a b : list Effect) :
  deliveries (a ++ b) = deliveries a ++ deliveries b.
Proof. apply flat_map_app. Qed.

(** The handlers subscribed by [forEach] over a part [l] of the table. *)
Local Abbreviation handlers l := (NotificationChannel.registered_observers l).

Local Abbreviation dispatch_to os msg :=
  (flat_map (fun o => observer_next o msg) os).

(** Entries under other keys raise nothing. *)
Lemma registered_silent (l : list (string * NotificationMessageMapper))
    (msg : NotificationMessage) :
  ~ In (meta_category msg) (map fst l) ->
  notifications (dispatch_to (handlers l) msg) = [].
Proof.
  induction l as [|[k value] l IH]; intros Hk; [reflexivity|].
  cbn [map fst In] in Hk.
  unfold NotificationChannel.registered_observers in *.
  cbn [flat_map fst snd]. rewrite flat_map_app, notifications_app.
  rewrite IH by tauto. rewrite app_nil_r.
  destruct (body value), (variant value); try reflexivity.
  cbn [flat_map NotificationChannel.observer_next app].
  destruct (String.eqb_spec (meta_category msg) k) as [Heq|_]; [|reflexivity].
  exfalso. apply Hk. left. symmetry. exact Heq.
Qed.

(** The entry under the frame's category raises its notification, once. *)
Lemma registered_once (l : list (string * NotificationMessageMapper))
    (msg : NotificationMessage) (value : NotificationMessageMapper)
    (b : NotificationMessage -> string) (v : AlertVariant) :
  NoDup (map fst l) ->
  In (meta_category msg, value) l ->
  body value = Some b -> variant value = Some v ->
  notifications (dispatch_to (handlers l) msg) =
    [ {| n_title := title value;
         n_message := Text (b msg);
         n_category := Some (meta_category msg);
         n_variant := v;
         n_hidden := hidden value |} ].
Proof.
  intros Hnd Hin Hb Hv.
  induction l as [|[k value'] l IH]; [destruct Hin|].
  cbn [map fst] in Hnd. apply NoDup_cons in Hnd as [Hk Hnd].
  rewrite list_elem_of_In in Hk.
  assert (Hsplit : forall os : list Observer,
             handlers ((k, value') :: l) = os ++ handlers l ->
             notifications (dispatch_to (handlers ((k, value') :: l)) msg) =
               notifications (dispatch_to os msg) ++
               notifications (dispatch_to (handlers l) msg)).
  { intros os ->. rewrite flat_map_app. apply notifications_app. }
  destruct Hin as [Heq|Hin].
  - injection Heq as -> ->.
    rewrite (Hsplit [Registered (meta_category msg) value]).
    + rewrite (registered_silent l) by exact Hk. rewrite app_nil_r.
      cbn [flat_map NotificationChannel.observer_next app].
      rewrite String.eqb_refl, Hb, Hv. reflexivity.
    + unfold NotificationChannel.registered_observers.
      cbn [flat_map fst snd]. rewrite Hb, Hv. reflexivity.
  - assert (Hne : meta_category msg <> k).
    { intros <-. apply Hk. apply in_map_iff. exists (meta_category msg, value).
      split; [reflexivity|exact Hin]. }
    rewrite (Hsplit (handlers [(k, value')])).
    + rewrite (IH Hnd Hin).
      unfold NotificationChannel.registered_observers.
      cbn [flat_map fst snd].
      destruct (body value'), (variant value'); try reflexivity.
      cbn [flat_map NotificationChannel.observer_next app].
      destruct (String.eqb_spec (meta_category msg) k) as [Heq|_]; [contradiction|].
      reflexivity.
    + unfold NotificationChannel.registered_observers.
      cbn [flat_map fst snd]. rewrite app_nil_r. reflexivity.
Qed.

(** Consumers raise no notification. *)
Lemma consumers_silent (cs : list Observer) (msg : NotificationMessage) :
  Forall (fun o => is_consumer o = true) cs ->
  notifications (dispatch_to cs msg) = [].
Proof.
  induction 1 as [|o cs Ho _ IH]; [reflexivity|].
  cbn [flat_map]. rewrite notifications_app, IH, app_nil_r.
  destruct o as [| |i c]; try discriminate Ho.
  cbn [NotificationChannel.observer_next].
  destruct (String.eqb _ _); reflexivity.
Qed.

(** Every consumer of the frame's category is called once with the frame,
    in subscription order, and no other consumer is. *)
Lemma deliveries_subscribers (st : Channel) (msg : NotificationMessage) :
  deliveries (snd (messages_next msg st)) =
    map (fun i => (i, msg)) (subscribers (meta_category msg) st).
Proof.
  unfold NotificationChannel.messages_next, subscribers. cbn [snd].
  induction (_messages st) as [|o os IH]; [reflexivity|].
  cbn [flat_map]. rewrite deliveries_app, map_app, IH. f_equal.
  destruct o as [k value| |i c]; cbn [NotificationChannel.observer_next].
  - destruct (String.eqb _ _); [|reflexivity].
    destruct (body value), (variant value); reflexivity.
  - destruct (negb _); reflexivity.
  - destruct (String.eqb _ _); reflexivity.
Qed.

Lemma filter_keeps_all {A} (f : A -> bool) (l : list A) :
  Forall (fun x => f x = true) l -> List.filter f l = l.
Proof.
  induction 1 as [|x l Hx _ IH]; [reflexivity|].
  cbn. rewrite Hx, IH. reflexivity.
Qed.

Lemma registered_not_consumers (l : list (string * NotificationMessageMapper)) :
  Forall (fun o : Observer => is_consumer o = false) (handlers l).
Proof.
  unfold NotificationChannel.registered_observers.
  induction l as [|[k value] l IH]; [constructor|].
  cbn [flat_map fst snd]. apply Forall_app. split; [|exact IH].
  destruct (body value), (variant value); repeat constructor.
Qed.

Lemma step_observers (st : Channel) (ev : Event) :
  observers_shape st -> observers_shape (fst (step ev st)).
Proof.
  intros (cs & Hm & Hcs).
  destruct ev as [parts|err| |evt_code|v|err| |err|category|id];
    cbn [NotificationChannel.step].
  - exists cs. split; [|exact Hcs]. rewrite <- Hm.
    unfold upstream_next, reconcile.
    destruct (upstream_stopped st); [reflexivity|].
    destruct (previous st) as [q|]; [destruct (isEqual q parts); [reflexivity|]|];
      destruct (bool_decide _); reflexivity.
  - exists cs. split; [|exact Hcs]. rewrite <- Hm.
    unfold upstream_error. destruct (upstream_stopped st); [reflexivity|].
    run_action. destruct (err_stack err); reflexivity.
  - exists cs. split; [exact Hm|exact Hcs].
  - exists cs. split; [|exact Hcs]. rewrite <- Hm.
    destruct (close_calls st evt_code) as (c & s & fn & detail & Heq).
    cbn [NotificationChannel.step] in Heq. rewrite Heq. reflexivity.
  - exists cs. split; [exact Hm|exact Hcs].
  - exists cs. split; [|exact Hcs]. rewrite <- Hm.
    run_action. destruct (err_stack err); reflexivity.
  - exists cs. split; [|exact Hcs]. rewrite <- Hm.
    run_action. destruct (ws st); reflexivity.
  - exists cs. split; [|exact Hcs]. rewrite <- Hm.
    run_action. destruct (err_stack err); reflexivity.
  - exists (cs ++ [Consumer (consumers_seen st) category]). split.
    + run_action. cbn [_messages set_messages]. rewrite Hm.
      rewrite <- app_assoc. reflexivity.
    + apply Forall_app. split; [exact Hcs|]. repeat constructor.
  - exists (List.filter (fun o => match o with
                                  | Consumer i _ => negb (Nat.eqb i id)
                                  | _ => true
                                  end) cs). split.
    + run_action. cbn [_messages set_messages]. rewrite Hm.
      rewrite List.filter_app. cbn [List.filter]. f_equal.
      apply filter_keeps_all.
      eapply Forall_impl; [apply registered_not_consumers|].
      intros [| |]; cbn; congruence.
    + apply Forall_forall. intros o Ho.
      apply list_elem_of_In, List.filter_In in Ho as [Ho _].
      rewrite Forall_forall in Hcs. apply Hcs, list_elem_of_In, Ho.
Qed.

Lemma run_observers (evs : list Event) (st : Channel) :
  observers_shape st -> observers_shape (fst (run evs st)).
Proof.
  revert st. induction evs as [|ev evs IH]; intros st Hs; [exact Hs|].
  rewrite run_cons. cbn [fst]. apply IH, step_observers, Hs.
Qed.

Lemma constructor_observers : observers_shape constructor.
Proof. exists []. split; [reflexivity|constructor]. Qed.

Section TableIsMap.

(** A [Map] holds one value per key. *)
Hypothesis messageKeys_NoDup : NoDup (map fst messageKeys).

(** C5, as the code has it.  Whatever events the channel has handled, a
    frame whose category is the key of a table entry with a [body] and a
    [variant] makes the channel raise exactly one notification: the
    entry's title, the text computed by [body], the key as category, the
    entry's variant and its [hidden] flag.  The fallback handler raises
    nothing for it, and every consumer subscribed to [messages] of that
    category is handed the frame, once. *)
Theorem registered_dispatch (evs : list Event) (msg : NotificationMessage)
    (value : NotificationMessageMapper) (b : NotificationMessage -> string)
    (v : AlertVariant) :
  In (meta_category msg, value) messageKeys ->
  body value = Some b ->
  variant value = Some v ->
  let st := fst (run evs constructor) in
  let calls := snd (step (Message msg) st) in
  notifications calls =
    [ {| n_title := title value;
         n_message := Text (b msg);
         n_category := Some (meta_category msg);
         n_variant := v;
         n_hidden := hidden value |} ] /\
  observer_next FallbackHandler msg = [] /\
  deliveries calls = map (fun i => (i, msg)) (subscribers (meta_category msg) st).
Proof.
  intros Hin Hb Hv st calls. subst calls st. cbn [NotificationChannel.step].
  assert (Hhas : messageKeys_has (meta_category msg) = true).
  { apply messageKeys_has_In, in_map_iff. exists (meta_category msg, value).
    split; [reflexivity|exact Hin]. }
  split; [|split].
  - destruct (run_observers evs _ constructor_observers) as (cs & Hm & Hcs).
    unfold NotificationChannel.messages_next. cbn [snd]. rewrite Hm.
    rewrite flat_map_app, notifications_app. cbn [flat_map].
    rewrite notifications_app, (consumers_silent cs msg Hcs), app_nil_r.
    rewrite (registered_once messageKeys msg value b v messageKeys_NoDup Hin Hb Hv).
    cbn [NotificationChannel.observer_next]. rewrite Hhas. reflexivity.
  - cbn [NotificationChannel.observer_next]. rewrite Hhas. reflexivity.
  - apply deliveries_subscribers.
Qed.

End TableIsMap.

(** C6. Whatever events the channel has handled, a frame whose category is
    not a key of the table makes the channel raise exactly one
    notification, the fallback one: the raw category as title, the frame's
    payload as message and the [success] variant; and every consumer
    subscribed to [messages] of that category is handed the frame, once. *)
Theorem fallback_dispatch (evs : list Event) (msg : NotificationMessage) :
  ~ In (meta_category msg) (map fst messageKeys) ->
  let st := fst (run evs constructor) in
  let calls := snd (step (Message msg) st) in
  notifications calls =
    [ {| n_title := meta_category msg;
         n_message := Raw (message msg);
         n_category := NotificationCategory (meta_category msg);
         n_variant := success;
         n_hidden := None |} ] /\
  deliveries calls = map (fun i => (i, msg)) (subscribers (meta_category msg) st).
Proof.
  intros Hk st calls. subst calls st. cbn [NotificationChannel.step].
  split; [|apply deliveries_subscribers].
  assert (Hhas : messageKeys_has (meta_category msg) = false).
  { apply not_true_is_false. rewrite messageKeys_has_In. exact Hk. }
  destruct (run_observers evs _ constructor_observers) as (cs & Hm & Hcs).
  unfold NotificationChannel.messages_next. cbn [snd]. rewrite Hm.
  rewrite flat_map_app, notifications_app. cbn [flat_map].
  rewrite notifications_app, (consumers_silent cs msg Hcs), app_nil_r.
  rewrite (registered_silent messageKeys msg Hk).
  cbn [NotificationChannel.observer_next]. rewrite Hhas. reflexivity.
Qed.

(** *** Further properties of the supervisor *)

Lemma run_app (evs1 evs2 : list Event) (st : Channel) :
  run (evs1 ++ evs2) st =
    (fst (run evs2 (fst (run evs1 st))),
     snd (run evs1 st) ++ snd (run evs2 (fst (run evs1 st)))).
Proof.
  revert st. induction evs1 as [|ev evs1 IH]; intros st.
  - cbn [app NotificationChannel.run skip fst snd].
    destruct (run evs2 st); reflexivity.
  - cbn [app]. rewrite !run_cons, IH. cbn [fst snd].
    rewrite app_assoc. reflexivity.
Qed.

(** Callbacks other than the open and close observers make no call on
    [setSessionState]. *)
Lemma step_session (st : Channel) (ev : Event) (s : SessionState) :
  is_open_or_close ev = false -> ~ In (SetSessionState s) (snd (step ev st)).
Proof.
  destruct ev as [parts|err| |evt_code|v|err| |err|category|id];
    cbn [is_open_or_close NotificationChannel.step]; intros H; try discriminate H.
  - unfold upstream_next, reconcile.
    destruct (upstream_stopped st); [intros []|].
    destruct (previous st) as [q|]; [destruct (isEqual q parts); [intros []|]|];
      (destruct (bool_decide _); cbn [fst snd]; [intros []|]);
      cbn [ws set_previous]; destruct (ws st); cbn; intuition discriminate.
  - unfold upstream_error. destruct (upstream_stopped st); [intros []|].
    run_action. destruct (err_stack err); cbn; intuition discriminate.
  - intros Hin. apply messages_next_calls in Hin as [[n Hn]|[i Hi]]; discriminate.
  - run_action. destruct (err_stack err); cbn; intuition discriminate.
  - run_action. destruct (ws st); cbn; intuition discriminate.
  - run_action. destruct (err_stack err); cbn; intuition discriminate.
  - run_action. cbn. intuition.
  - run_action. cbn. intuition.
Qed.

(** X1. The channel calls [setSessionState] from the open and close
    observers only: [USER_SESSION] on open; on close [NO_USER_SESSION]
    exactly when the code is the logged-out or the protocol-failure one,
    and [CREATING_USER_SESSION] for every other code.  Tuples, frames,
    errors and logout never write the session state. *)
Theorem session_written_on_open_and_close (st : Channel) (ev : Event)
    (s : SessionState) :
  In (SetSessionState s) (snd (step ev st)) ->
  (ev = Open /\ s = USER_SESSION) \/
  (exists evt_code,
      ev = Close evt_code /\
      (evt_code = CloseStatus_value LOGGED_OUT \/
       evt_code = CloseStatus_value PROTOCOL_FAILURE ->
       s = NO_USER_SESSION) /\
      (evt_code <> CloseStatus_value LOGGED_OUT ->
       evt_code <> CloseStatus_value PROTOCOL_FAILURE ->
       s = CREATING_USER_SESSION)).
Proof.
  intros Hin. destruct (is_open_or_close ev) eqn:Hev.
  - destruct ev; try discriminate Hev.
    + left. split; [reflexivity|]. cbn in Hin.
      destruct Hin as [Hin|[Hin|[]]]; congruence.
    + right. exists evt_code. split; [reflexivity|].
      revert Hin. cbn [NotificationChannel.step].
      unfold NotificationChannel.closeObserver_next, close_switch.
      destruct (Z.eqb_spec evt_code (CloseStatus_value LOGGED_OUT));
        [|destruct (Z.eqb_spec evt_code (CloseStatus_value PROTOCOL_FAILURE));
          [|destruct (Z.eqb_spec evt_code (CloseStatus_value INTERNAL_ERROR))]];
        cbn; intros [Hin|[Hin|[Hin|[]]]]; try discriminate Hin;
        injection Hin as <-; split; intros; try reflexivity; tauto.
  - exfalso. exact (step_session st ev s Hev Hin).
Qed.

Lemma step_passive (st : Channel) (ev : Event) :
  is_passive ev = true -> fst (step ev st) = st.
Proof.
  destruct ev as [parts|err| |evt_code|v|err| |err|category|id];
    cbn [is_passive NotificationChannel.step]; intros H; try discriminate H.
  - reflexivity.
  - run_action. destruct (err_stack err); reflexivity.
  - run_action. destruct (ws st); reflexivity.
  - run_action. destruct (err_stack err); reflexivity.
Qed.

(** X2. Frames, transport errors and the callbacks of [loggedOut()] assign
    no field of the channel: the handle, the readiness, the memory of the
    gate and the observers after a run are those of the run without these
    events. *)
Theorem passive_events_keep_state (evs : list Event) (st : Channel) :
  fst (run evs st) =
  fst (run (List.filter (fun ev => negb (is_passive ev)) evs) st).
Proof.
  revert st. induction evs as [|ev evs IH]; intros st; [reflexivity|].
  cbn [List.filter]. destruct (is_passive ev) eqn:Hp; cbn [negb].
  - rewrite run_cons. cbn [fst]. rewrite step_passive by exact Hp. apply IH.
  - rewrite !run_cons. cbn [fst]. apply IH.
Qed.

(** X3. The readiness a new observer of [isReady()] is told is the one
    written at the last open or close event: ready after an open, not ready
    with the reason of the close code after a close, whatever happened
    before and whatever other events came after. *)
Theorem readiness_follows_last_event (st : Channel) (pre post : list Event) :
  Forall (fun ev => is_open_or_close ev = false) post ->
  isReady_replay (fst (run (pre ++ Open :: post) st)) =
    {| ready := true; code := None |} /\
  (forall evt_code,
      isReady_replay (fst (run (pre ++ Close evt_code :: post) st)) =
        {| ready := false;
           code := Some (fst (fst (fst (close_switch CloseStatus_value evt_code)))) |}).
Proof.
  intros Hpost. unfold isReady_replay. split; [|intros evt_code];
    rewrite run_app; cbn [fst]; rewrite run_cons; cbn [fst];
    rewrite run_ready by exact Hpost.
  - reflexivity.
  - cbn [NotificationChannel.step]. unfold NotificationChannel.closeObserver_next.
    destruct (close_switch CloseStatus_value evt_code) as [[[c detail] fn] s].
    reflexivity.
Qed.

Lemma connection_attempts_app (a b : list Effect) :
  connection_attempts (a ++ b) = connection_attempts a + connection_attempts b.
Proof.
  unfold connection_attempts. rewrite List.filter_app, length_app. reflexivity.
Qed.

Lemma no_create_no_attempt (calls : list Effect) :
  (forall c u p, ~ In (WsCreate c u p) calls) -> connection_attempts calls = 0.
Proof.
  unfold connection_attempts. induction calls as [|e calls IH]; intros H; [reflexivity|].
  cbn [List.filter]. destruct e; try (apply IH; intros c' u' p' Hin; apply (H c' u' p'); right; exact Hin).
  exfalso. apply (H c u protocol). left. reflexivity.
Qed.

(** Once the combined stream has errored no socket is created. *)
Lemma stopped_no_attempt (evs : list Event) (st : Channel) :
  upstream_stopped st = true -> connection_attempts (snd (run evs st)) = 0.
Proof.
  revert st. induction evs as [|ev evs IH]; intros st Hu; [reflexivity|].
  rewrite run_cons. cbn [snd]. rewrite connection_attempts_app.
  rewrite IH by (apply step_stopped; exact Hu). rewrite Nat.add_0_r.
  apply no_create_no_attempt. intros c u p Hin.
  destruct (create_only_when_creating _ _ _ _ _ Hin) as (parts & -> & _).
  cbn [NotificationChannel.step] in Hin.
  rewrite upstream_stopped_noop in Hin by exact Hu. exact Hin.
Qed.

(** X4. When the request for the notifications address is answered with a
    status that is not OK, the error thrown carries the status and the body
    text; handed to the [error] callback of the combined stream it raises
    one danger alert titled [Notifications URL configuration] with the
    stringified message, and from then on no event makes the channel create
    a socket. *)
Theorem failed_lookup_stops_channel (st : Channel) (resp : UrlResponse)
    (stack : option string) (err : Error) (evs : list Event) :
  upstream_stopped st = false ->
  notificationsUrl resp stack = inr err ->
  (exists status text,
      resp = UrlNotOk status text /\
      err_message err = pretty status +:+ " " +:+ text) /\
  List.filter is_notification (snd (step (UpstreamError err) st)) =
    [Alert fn_danger "Notifications URL configuration"
       (Some (JSON_stringify (err_message err))) None None] /\
  connection_attempts (snd (step (UpstreamError err) st)) = 0 /\
  connection_attempts (snd (run evs (fst (step (UpstreamError err) st)))) = 0.
Proof.
  intros Hu Hresp. split; [|split; [|split]].
  - destruct resp as [u|status text]; [discriminate Hresp|].
    injection Hresp as <-. exists status, text. split; reflexivity.
  - cbn [NotificationChannel.step]. unfold upstream_error. rewrite Hu.
    run_action. destruct (err_stack err); reflexivity.
  - cbn [NotificationChannel.step]. unfold upstream_error. rewrite Hu.
    run_action. destruct (err_stack err); reflexivity.
  - apply stopped_no_attempt.
    cbn [NotificationChannel.step]. unfold upstream_error. rewrite Hu.
    run_action. destruct (err_stack err); reflexivity.
Qed.

(** Tuples in [CREATING_USER_SESSION] with fresh ticks each pass the gate. *)
Lemma ticks_reconnect (ps : list Parts) (st : Channel) :
  Forall (fun p => sessionState p = CREATING_USER_SESSION) ps ->
  NoDup (map tick ps) ->
  upstream_stopped st = false ->
  (forall q, previous st = Some q -> ~ In (tick q) (map tick ps)) ->
  connection_attempts (snd (run (map Upstream ps) st)) = length ps.
Proof.
  intros Hs. revert st. induction Hs as [|p ps Hp _ IH]; intros st Hnd Hu Hq;
    [reflexivity|].
  cbn [map] in *. apply NoDup_cons in Hnd as [Hnotin Hnd].
  rewrite list_elem_of_In in Hnotin.
  rewrite run_cons. cbn [snd length]. rewrite connection_attempts_app.
  assert (Hstep : step (Upstream p) st = reconcile p (set_previous (Some p) st)).
  { cbn [NotificationChannel.step]. unfold upstream_next. rewrite Hu.
    destruct (previous st) as [q|] eqn:Hprev; [|reflexivity].
    unfold isEqual. destruct (bool_decide_reflect (q = p)) as [->|_]; [|reflexivity].
    exfalso. apply (Hq p eq_refl). left. reflexivity. }
  rewrite Hstep, reconcile_creating by exact Hp. cbn [fst snd].
  rewrite IH.
  - rewrite connection_attempts_app. cbn [set_previous ws].
    destruct (ws st); reflexivity.
  - exact Hnd.
  - exact Hu.
  - cbn. intros q Hq'. injection Hq' as <-. exact Hnotin.
Qed.

(** X5. The timer tick is part of the tuple, so the gate does not hold back
    the periodic emissions: as long as the session state stays
    [CREATING_USER_SESSION], every tuple with a new tick creates one more
    socket, even when address, token and method are unchanged. *)
Theorem every_tick_reconnects (ps : list Parts) :
  Forall (fun p => sessionState p = CREATING_USER_SESSION) ps ->
  NoDup (map tick ps) ->
  connection_attempts (snd (run (map Upstream ps) constructor)) = length ps.
Proof.
  intros Hs Hnd. apply ticks_reconnect; try assumption; [reflexivity|].
  intros q Hq. discriminate Hq.
Qed.

Lemma created_app (a b : list Effect) : created (a ++ b) = created a ++ created b.
Proof. apply flat_map_app. Qed.

Lemma step_handle (st : Channel) (ev : Event) :
  ws (fst (step ev st)) =
    match last (created (snd (step ev st))) with
    | Some c => Some c
    | None => ws st
    end.
Proof.
  destruct (is_upstream ev) eqn:Hup;
    [|destruct (is_logout ev) eqn:Hl; [destruct ev; try discriminate Hl|]].
  - destruct ev as [parts| | | | | | | | |]; try discriminate Hup.
    cbn [NotificationChannel.step]. unfold upstream_next, reconcile.
    destruct (upstream_stopped st); [reflexivity|].
    destruct (previous st) as [q|]; [destruct (isEqual q parts); [reflexivity|]|];
      (destruct (bool_decide _); [reflexivity|]);
      cbn [fst snd ws set_previous set_ws]; destruct (ws st); reflexivity.
  - cbn [NotificationChannel.step]. unfold loggedOut_next.
    destruct (ws st) eqn:E; cbn; exact E.
  - destruct (step_quiet st ev Hup Hl) as (Hws & _ & Hq). rewrite Hws.
    assert (Hnone : created (snd (step ev st)) = []).
    { induction Hq as [|e calls He _ IH]; [reflexivity|].
      cbn [created flat_map]. fold (created calls). rewrite IH.
      destruct e; try discriminate He; reflexivity. }
    rewrite Hnone. reflexivity.
Qed.

Lemma run_handle (evs : list Event) (st : Channel) :
  ws (fst (run evs st)) =
    match last (created (snd (run evs st))) with
    | Some c => Some c
    | None => ws st
    end.
Proof.
  revert st. induction evs as [|ev evs IH]; intros st; [reflexivity|].
  rewrite run_cons. cbn [fst snd]. rewrite IH, created_app, last_app, step_handle.
  destruct (last (created (snd (run evs (fst (step ev st)))))); reflexivity.
Qed.

(** X6. The handle is never cleared: after any run it refers to the socket
    created last, also when that socket has been closed or completed since,
    and it is null only while no socket has been created. *)
Theorem handle_is_last_created (evs : list Event) :
  ws (fst (run evs constructor)) = last (created (snd (run evs constructor))).
Proof.
  rewrite run_handle. cbn [ws NotificationChannel.constructor].
  destruct (last _); reflexivity.
Qed.

Lemma run_tracks (evs : list Event) (st : Channel) (conns : list nat) :
  tracks st conns ->
  tracks (fst (run evs st)) (fold_left after_call (snd (run evs st)) conns).
Proof.
  revert st conns. induction evs as [|ev evs IH]; intros st conns Ht; [exact Ht|].
  rewrite run_cons. cbn [fst snd]. rewrite fold_left_app.
  apply IH. apply step_single. exact Ht.
Qed.

(** X7. When [loggedOut()] emits, no socket is left: whatever the channel
    has done before, after the callback every socket it created has been
    completed. *)
Theorem logout_completes_socket (evs : list Event) :
  open_sockets (snd (run (evs ++ [LoggedOut]) constructor)) = [].
Proof.
  rewrite run_app. cbn [snd]. unfold open_sockets. rewrite fold_left_app.
  pose proof (run_tracks evs constructor [] (or_introl eq_refl)) as Ht.
  rewrite run_cons. cbn [NotificationChannel.run skip snd fst].
  rewrite app_nil_r. cbn [NotificationChannel.step]. unfold loggedOut_next.
  destruct Ht as [->|(c & Hc & ->)].
  - destruct (ws _); reflexivity.
  - rewrite Hc. cbn. rewrite Nat.eqb_refl. reflexivity.
Qed.

Lemma split_in_app {A} (pre post a b : list A) (x : A) :
  pre ++ x :: post = a ++ b ->
  (exists post1, a = pre ++ x :: post1 /\ post = post1 ++ b) \/
  (exists pre2, pre = a ++ pre2 /\ b = pre2 ++ x :: post).
Proof.
  revert pre. induction a as [|y a IH]; intros pre H.
  - right. exists pre. split; [reflexivity|]. symmetry. exact H.
  - destruct pre as [|z pre]; cbn in H.
    + injection H as <- ->. left. exists a. split; reflexivity.
    + injection H as <- H. destruct (IH pre H) as [(post1 & -> & ->)|(pre2 & -> & ->)].
      * left. exists post1. split; reflexivity.
      * right. exists pre2. split; reflexivity.
Qed.

(** Within one event a created socket is subscribed to and sent the
    handshake frame, and that ends the event. *)
Lemma step_handshake (st : Channel) (ev : Event) pre c u p post :
  snd (step ev st) = pre ++ WsCreate c u p :: post ->
  post = [WsSubscribe c; WsSend c "connect"].
Proof.
  intros Hcalls.
  assert (Hin : In (WsCreate c u p) (snd (step ev st))).
  { rewrite Hcalls. apply in_or_app. right. left. reflexivity. }
  destruct (create_only_when_creating _ _ _ _ _ Hin) as (parts & -> & Hs).
  clear Hin. revert Hcalls. cbn [NotificationChannel.step]. unfold upstream_next.
  assert (Hr : forall st' : Channel,
             snd (reconcile parts st') = pre ++ WsCreate c u p :: post ->
             post = [WsSubscribe c; WsSend c "connect"]).
  { intros st'. rewrite reconcile_creating by exact Hs. cbn [snd].
    destruct (ws st') as [old|]; cbn [app]; intros H.
    - destruct pre as [|e1 [|e2 pre]]; cbn in H; try discriminate H.
      + injection H as _ <- _ _ <-. reflexivity.
      + destruct pre as [|e3 [|e4 [|e5 pre]]]; discriminate H.
    - destruct pre as [|e1 pre]; cbn in H.
      + injection H as <- _ _ <-. reflexivity.
      + destruct pre as [|e2 [|e3 [|e4 pre]]]; discriminate H. }
  destruct (upstream_stopped st); [destruct pre; discriminate|].
  destruct (previous st) as [q|];
    [destruct (isEqual q parts); [destruct pre; discriminate|]|]; apply Hr.
Qed.

(** X8. Every socket the channel creates is subscribed to and then sent
    the one handshake frame [connect], before the channel makes any other
    call: in the calls of any run, [webSocket(...)] is directly followed by
    [subscribe] and [next({message: 'connect'})] on the same socket. *)
Theorem every_socket_gets_handshake (evs : list Event) (st : Channel)
    (pre post : list Effect) (c : nat) (u : string) (p : option string) :
  snd (run evs st) = pre ++ WsCreate c u p :: post ->
  exists rest, post = WsSubscribe c :: WsSend c "connect" :: rest.
Proof.
  revert st pre. induction evs as [|ev evs IH]; intros st pre Hcalls.
  - destruct pre; discriminate Hcalls.
  - rewrite run_cons in Hcalls. cbn [snd] in Hcalls. symmetry in Hcalls.
    apply split_in_app in Hcalls as [(post1 & Hstep & ->)|(pre2 & -> & Hrest)].
    + apply step_handshake in Hstep as ->. eexists. reflexivity.
    + apply IH in Hrest. exact Hrest.
Qed.

(** *** Further properties of the distributor *)

(** The constructor's observers only call [notify]. *)
Lemma handlers_notify (os : list Observer) (msg : NotificationMessage) :
  Forall (fun o : Observer => is_consumer o = false) os ->
  dispatch_to os msg = map Notify (notifications (dispatch_to os msg)) /\
  deliveries (dispatch_to os msg) = [].
Proof.
  induction 1 as [|o os Ho _ [IH1 IH2]]; [split; reflexivity|].
  cbn [flat_map]. rewrite notifications_app, deliveries_app, map_app, <- IH1, IH2.
  destruct o as [k value| |i c]; try discriminate Ho;
    cbn [NotificationChannel.observer_next].
  - destruct (String.eqb _ _); [|split; reflexivity].
    destruct (body value), (variant value); split; reflexivity.
  - destruct (negb _); split; reflexivity.
Qed.

(** The consumers are only handed the frame. *)
Lemma consumers_deliver (cs : list Observer) (msg : NotificationMessage) :
  Forall (fun o : Observer => is_consumer o = true) cs ->
  dispatch_to cs msg =
    map (fun im => Deliver (fst im) (snd im)) (deliveries (dispatch_to cs msg)).
Proof.
  induction 1 as [|o cs Ho _ IH]; [reflexivity|].
  cbn [flat_map]. rewrite deliveries_app, map_app, <- IH. f_equal.
  destruct o as [| |i c]; try discriminate Ho.
  cbn [NotificationChannel.observer_next].
  destruct (String.eqb _ _); reflexivity.
Qed.

(** The calls a frame causes in a channel whose observers are those of the
    constructor followed by consumers. *)
Lemma dispatch_shape (st : Channel) (msg : NotificationMessage) :
  observers_shape st ->
  exists cs,
    Forall (fun o : Observer => is_consumer o = true) cs /\
    snd (step (Message msg) st) =
      dispatch_to (registered_observers ++ [FallbackHandler]) msg ++
      dispatch_to cs msg.
Proof.
  intros (cs & Hm & Hcs). exists cs. split; [exact Hcs|].
  cbn [NotificationChannel.step]. unfold NotificationChannel.messages_next.
  cbn [snd]. rewrite Hm, <- flat_map_app, <- app_assoc. reflexivity.
Qed.

Lemma constructor_not_consumers :
  Forall (fun o : Observer => is_consumer o = false)
    (registered_observers ++ [FallbackHandler]).
Proof.
  apply Forall_app. split; [apply registered_not_consumers|].
  repeat constructor.
Qed.

(** X9. For every frame the channel's own notification, if it raises one,
    comes before any consumer of [messages(category)] is handed the frame:
    the calls are the [notify] calls followed by the consumers' callbacks,
    and nothing else. *)
Theorem notify_before_consumers (evs : list Event) (msg : NotificationMessage) :
  let calls := snd (step (Message msg) (fst (run evs constructor))) in
  calls =
    map Notify (notifications calls) ++
    map (fun im => Deliver (fst im) (snd im)) (deliveries calls).
Proof.
  cbn zeta.
  destruct (dispatch_shape _ msg (run_observers evs _ constructor_observers))
    as (cs & Hcs & ->).
  destruct (handlers_notify _ msg constructor_not_consumers) as [Hn Hd].
  rewrite notifications_app, deliveries_app, Hd.
  rewrite (consumers_silent cs msg Hcs), app_nil_r. cbn [app].
  rewrite <- Hn, <- (consumers_deliver cs msg Hcs). reflexivity.
Qed.

(** An entry without [body] or without [variant] raises nothing. *)
Lemma registered_mute (l : list (string * NotificationMessageMapper))
    (msg : NotificationMessage) (value : NotificationMessageMapper) :
  NoDup (map fst l) ->
  In (meta_category msg, value) l ->
  body value = None \/ variant value = None ->
  notifications (dispatch_to (handlers l) msg) = [].
Proof.
  intros Hnd Hin Hmissing.
  induction l as [|[k value'] l IH]; [destruct Hin|].
  cbn [map fst] in Hnd. apply NoDup_cons in Hnd as [Hk Hnd].
  rewrite list_elem_of_In in Hk.
  assert (Hsplit : forall os : list Observer,
             handlers ((k, value') :: l) = os ++ handlers l ->
             notifications (dispatch_to (handlers ((k, value') :: l)) msg) =
               notifications (dispatch_to os msg) ++
               notifications (dispatch_to (handlers l) msg)).
  { intros os ->. rewrite flat_map_app. apply notifications_app. }
  destruct Hin as [Heq|Hin].
  - injection Heq as -> ->.
    rewrite (Hsplit []).
    + apply (registered_silent l). exact Hk.
    + unfold NotificationChannel.registered_observers.
      cbn [flat_map fst snd].
      destruct Hmissing as [-> | ->]; [reflexivity|].
      destruct (body value); reflexivity.
  - assert (Hne : meta_category msg <> k).
    { intros <-. apply Hk. apply in_map_iff. exists (meta_category msg, value).
      split; [reflexivity|exact Hin]. }
    rewrite (Hsplit (handlers [(k, value')])).
    + rewrite (IH Hnd Hin), app_nil_r.
      unfold NotificationChannel.registered_observers.
      cbn [flat_map fst snd].
      destruct (body value'), (variant value'); try reflexivity.
      cbn [flat_map NotificationChannel.observer_next app].
      destruct (String.eqb_spec (meta_category msg) k) as [Heq|_]; [contradiction|].
      reflexivity.
    + unfold NotificationChannel.registered_observers.
      cbn [flat_map fst snd]. rewrite app_nil_r. reflexivity.
Qed.

Section SilentCategories.

(** A [Map] holds one value per key. *)
Hypothesis messageKeys_NoDup : NoDup (map fst messageKeys).

(** X10. A frame never raises more than one notification, and it raises
    none when its category is a key of the table whose entry lacks a [body]
    or a [variant]: such a category is silent, the handler is not
    registered and the fallback handler skips it because the key is in the
    table. *)
Theorem one_notification_per_frame (evs : list Event) (msg : NotificationMessage) :
  let calls := snd (step (Message msg) (fst (run evs constructor))) in
  length (notifications calls) <= 1 /\
  (forall value,
      In (meta_category msg, value) messageKeys ->
      body value = None \/ variant value = None ->
      notifications calls = []).
Proof.
  cbn zeta.
  destruct (dispatch_shape _ msg (run_observers evs _ constructor_observers))
    as (cs & Hcs & ->).
  rewrite notifications_app, (consumers_silent cs msg Hcs), app_nil_r.
  rewrite flat_map_app, notifications_app.
  cbn [flat_map NotificationChannel.observer_next]. rewrite app_nil_r.
  assert (Hmute : forall value,
             In (meta_category msg, value) messageKeys ->
             body value = None \/ variant value = None ->
             notifications (dispatch_to registered_observers msg) ++
             notifications
               (if negb (messageKeys_has (meta_category msg))
                then [Notify {| n_title := meta_category msg;
                                n_message := Raw (message msg);
                                n_category := NotificationCategory (meta_category msg);
                                n_variant := success;
                                n_hidden := None |}]
                else []) = []).
  { intros value Hin Hmissing.
    rewrite (registered_mute messageKeys msg value messageKeys_NoDup Hin Hmissing).
    assert (Hhas : messageKeys_has (meta_category msg) = true).
    { apply messageKeys_has_In, in_map_iff. exists (meta_category msg, value).
      split; [reflexivity|exact Hin]. }
    rewrite Hhas. reflexivity. }
  split; [|exact Hmute].
  destruct (messageKeys_has (meta_category msg)) eqn:Hhas.
  - pose proof (proj1 (messageKeys_has_In _) Hhas) as Hin.
    apply in_map_iff in Hin as ([k value] & Hk & Hin). cbn in Hk. subst k.
    destruct (body value) as [b|] eqn:Hb; [destruct (variant value) as [v|] eqn:Hv|].
    + rewrite (registered_once messageKeys msg value b v messageKeys_NoDup Hin Hb Hv).
      cbn. lia.
    + rewrite (Hmute value Hin (or_intror Hv)). cbn. lia.
    + rewrite (Hmute value Hin (or_introl Hb)). cbn. lia.
  - rewrite (registered_silent messageKeys msg).
    + cbn. lia.
    + rewrite <- messageKeys_has_In, Hhas. discriminate.
Qed.

End SilentCategories.

End Properties.

(** *** The properties at the sample parameters *)

Lemma sample_codes_NoDup :
  NoDup [sample_codes LOGGED_OUT; sample_codes PROTOCOL_FAILURE;
         sample_codes INTERNAL_ERROR].
Proof. apply (bool_decide_unpack _). vm_compute. exact I. Defined.

Lemma sample_keys_NoDup : NoDup (map fst sample_keys).
Proof. apply (bool_decide_unpack _). vm_compute. exact I. Defined.

Lemma close_classification_witness :
  close_outcome sample_codes (constructor sample_keys) 1000
    LOGGED_OUT NO_USER_SESSION fn_info (Some "Logout success") true /\
  close_outcome sample_codes (constructor sample_keys) 1002
    PROTOCOL_FAILURE NO_USER_SESSION fn_danger (Some "Authentication failed") false /\
  close_outcome sample_codes (constructor sample_keys) 1011
    INTERNAL_ERROR CREATING_USER_SESSION fn_danger (Some "Internal server error") false /\
  close_outcome sample_codes (constructor sample_keys) 1006
    UNKNOWN CREATING_USER_SESSION fn_info None true.
Proof.
  pose proof (fun code =>
    close_classification sample_codes sample_codes_NoDup
      (constructor sample_keys) code) as H.
  split; [|split; [|split]].
  - apply (H 1000%Z). reflexivity.
  - apply (H 1002%Z). reflexivity.
  - apply (H 1011%Z). reflexivity.
  - apply (H 1006%Z); cbn; lia.
Defined.

Lemma single_connection_witness :
  let evs := [Upstream sample_parts; Open; Upstream (sample_parts_at 1);
              LoggedOut] in
  let calls :=
    snd (run sample_keys sample_category sample_codes sample_stringify evs
           (constructor sample_keys)) in
  let st :=
    fst (run sample_keys sample_category sample_codes sample_stringify
           [Upstream sample_parts; Open] (constructor sample_keys)) in
  (take 7 calls `prefix_of` calls /\
   take 7 calls =
     [WsCreate 0 "wss://x" (Some "base64url.bearer.authorization.cryostat.abc");
      WsSubscribe 0; WsSend 0 "connect";
      ReadyNext {| ready := true; code := None |};
      SetSessionState USER_SESSION;
      WsComplete 0;
      WsCreate 1 "wss://x" (Some "base64url.bearer.authorization.cryostat.abc")] /\
   length (open_sockets (take 7 calls)) <= 1) /\
  (ws st = Some 0 /\
   sessionState (sample_parts_at 1) = CREATING_USER_SESSION /\
   exists new protocol,
     new <> 0 /\
     snd (reconcile (sample_parts_at 1) st) =
       [WsComplete 0; WsCreate new (url (sample_parts_at 1)) protocol;
        WsSubscribe new; WsSend new "connect"] /\
     ws (fst (reconcile (sample_parts_at 1) st)) = Some new).
Proof.
  cbn zeta. split.
  - split; [apply prefix_take|]. split; [reflexivity|].
    apply (proj1 (single_connection sample_keys sample_category sample_codes
                    sample_stringify
                    [Upstream sample_parts; Open; Upstream (sample_parts_at 1);
                     LoggedOut])).
    apply prefix_take.
  - split; [reflexivity|]. split; [reflexivity|].
    apply (proj2 (single_connection sample_keys sample_category sample_codes
                    sample_stringify [Upstream sample_parts; Open])
             (sample_parts_at 1) 0); reflexivity.
Defined.

(** C2 as stated fails.  Two tuples in [CREATING_USER_SESSION] that differ
    in the tick arrive before any socket has opened or closed.  The second
    makes the channel call [complete()] on socket 0 and create socket 1 at
    once: no close event has occurred, so both connections are live, while
    only socket 1 counts as created and not completed. *)
Lemma two_connections_at_once :
  let evs := [Upstream (sample_parts_at 0); Upstream (sample_parts_at 1)] in
  let calls :=
    snd (run sample_keys sample_category sample_codes sample_stringify evs
           (constructor sample_keys)) in
  Forall (fun ev : @Event string => is_open_or_close ev = false) evs /\
  calls =
    [WsCreate 0 "wss://x" (Some "base64url.bearer.authorization.cryostat.abc");
     WsSubscribe 0; WsSend 0 "connect";
     WsComplete 0;
     WsCreate 1 "wss://x" (Some "base64url.bearer.authorization.cryostat.abc");
     WsSubscribe 1; WsSend 1 "connect"] /\
  connected calls = [0; 1] /\
  ~ length (connected calls) <= 1 /\
  open_sockets calls = [1].
Proof.
  cbn zeta. split; [repeat constructor|]. split; [reflexivity|].
  split; [reflexivity|]. split; [|reflexivity].
  intros H. vm_compute in H. lia.
Qed.

Lemma reconcile_only_when_creating_witness :
  sessionState sample_idle_parts <> CREATING_USER_SESSION /\
  reconcile sample_idle_parts (constructor sample_keys) =
    (constructor sample_keys, []).
Proof.
  split; [discriminate|].
  apply (reconcile_only_when_creating sample_keys sample_category sample_codes
           sample_stringify).
  discriminate.
Defined.

Lemma open_with_subprotocol_witness :
  sessionState sample_parts = CREATING_USER_SESSION /\
  exists completed protocol,
    snd (reconcile sample_parts (constructor sample_keys)) =
      completed ++ [WsCreate 0 "wss://x" protocol; WsSubscribe 0;
                    WsSend 0 "connect"] /\
    protocol = Some "base64url.bearer.authorization.cryostat.abc".
Proof.
  split; [reflexivity|].
  destruct (open_with_subprotocol sample_keys sample_category sample_codes
              sample_stringify (constructor sample_keys) sample_parts eq_refl)
    as [(completed & protocol & Hcalls & _ & Hbearer & _) _].
  exists completed, protocol. split; [exact Hcalls|].
  apply Hbearer. reflexivity.
Defined.

Lemma duplicate_tuple_suppressed_witness :
  let first := step sample_keys sample_category sample_codes sample_stringify
                 (Upstream sample_parts) (constructor sample_keys) in
  let between := run sample_keys sample_category sample_codes sample_stringify
                   [Open; Subscribe "WsClientActivity"] (fst first) in
  step sample_keys sample_category sample_codes sample_stringify
    (Upstream sample_parts) (fst between) = (fst between, []).
Proof.
  apply (duplicate_tuple_suppressed sample_keys sample_category sample_codes
           sample_stringify (constructor sample_keys) sample_parts).
  repeat constructor.
Defined.

Lemma readiness_transitions_witness :
  let st := constructor sample_keys in
  let opened := step sample_keys sample_category sample_codes sample_stringify
                  Open st in
  ready (_ready (fst opened)) = true /\
  (ready (_ready st) = true \/ @Open string = Open).
Proof.
  split; [reflexivity|].
  apply (readiness_transitions sample_keys sample_category sample_codes
           sample_stringify).
  reflexivity.
Defined.

Lemma initial_readiness_witness :
  isReady_replay
    (fst (run sample_keys sample_category sample_codes sample_stringify
            [Upstream sample_parts; Subscribe "WsClientActivity"; LoggedOut]
            (constructor sample_keys))) =
    {| ready := false; code := None |}.
Proof.
  apply (initial_readiness sample_keys sample_category sample_codes
           sample_stringify).
  repeat constructor.
Defined.

(** A frame under the complete entry of the sample table, after a consumer
    subscribed and the socket opened. *)
Lemma registered_dispatch_witness :
  let msg := {| meta_category := "WsClientActivity"; message := "client 7" |} in
  let st := fst (run sample_keys sample_category sample_codes sample_stringify
                   [Subscribe "WsClientActivity"; Upstream sample_parts; Open]
                   (constructor sample_keys)) in
  let calls := snd (step sample_keys sample_category sample_codes
                      sample_stringify (Message msg) st) in
  notifications calls =
    [ {| n_title := "WebSocket Client Activity";
         n_message := Text "client 7 changed";
         n_category := Some "WsClientActivity";
         n_variant := info;
         n_hidden := Some true |} ] /\
  observer_next sample_keys sample_category FallbackHandler msg = [] /\
  deliveries calls = map (fun i => (i, msg)) (subscribers "WsClientActivity" st).
Proof.
  refine (registered_dispatch sample_keys sample_category sample_codes
            sample_stringify sample_keys_NoDup
            [Subscribe "WsClientActivity"; Upstream sample_parts; Open]
            {| meta_category := "WsClientActivity"; message := "client 7" |}
            {| title := "WebSocket Client Activity";
               body := Some (fun m => message m +:+ " changed");
               variant := Some info;
               hidden := Some true |}
            (fun m => message m +:+ " changed") info _ _ _).
  - cbn. left. reflexivity.
  - reflexivity.
  - reflexivity.
Defined.

(** C5 as stated fails: the third entry of the sample table has a title and
    a [body] but no [variant]; a frame of its category raises no
    notification at all, neither the entry's nor the fallback one. *)
Lemma entry_without_variant_is_silent :
  let msg := {| meta_category := "ProbeTemplateUploaded";
                message := "probes.xml" |} in
  let value := {| title := "Probe Template Created";
                  body := Some (fun m => message m +:+ " was uploaded");
                  variant := None;
                  hidden := None |} in
  In (meta_category msg, value) sample_keys /\
  (exists b, body value = Some b) /\
  title value <> "" /\
  notifications
    (snd (step sample_keys sample_category sample_codes sample_stringify
            (Message msg) (constructor sample_keys))) = [].
Proof.
  cbn zeta. split; [|split; [|split]].
  - cbn. right. right. left. reflexivity.
  - eexists. reflexivity.
  - discriminate.
  - reflexivity.
Qed.

Lemma fallback_dispatch_witness :
  let msg := {| meta_category := "Unheard"; message := "payload" |} in
  let st := fst (run sample_keys sample_category sample_codes sample_stringify
                   [Subscribe "Unheard"; Subscribe "WsClientActivity"]
                   (constructor sample_keys)) in
  let calls := snd (step sample_keys sample_category sample_codes
                      sample_stringify (Message msg) st) in
  notifications calls =
    [ {| n_title := "Unheard";
         n_message := Raw "payload";
         n_category := None;
         n_variant := success;
         n_hidden := None |} ] /\
  deliveries calls = map (fun i => (i, msg)) (subscribers "Unheard" st).
Proof.
  refine (fallback_dispatch sample_keys sample_category sample_codes
            sample_stringify
            [Subscribe "Unheard"; Subscribe "WsClientActivity"]
            {| meta_category := "Unheard"; message := "payload" |} _).
  cbn. intuition discriminate.
Defined.

(** The scenarios of the specification, evaluated. *)
Example scenario_open :
  run sample_keys sample_category sample_codes sample_stringify
    [Upstream sample_parts; Open] (constructor sample_keys) =
  ({| ws := Some 0;
      _ready := {| ready := true; code := None |};
      _messages := registered_observers sample_keys ++ [FallbackHandler];
      previous := Some sample_parts;
      upstream_stopped := false;
      sockets := 1;
      consumers_seen := 0 |},
   [WsCreate 0 "wss://x" (Some "base64url.bearer.authorization.cryostat.abc");
    WsSubscribe 0;
    WsSend 0 "connect";
    ReadyNext {| ready := true; code := None |};
    SetSessionState USER_SESSION]).
Proof. reflexivity. Qed.

Example scenario_internal_error :
  snd (step sample_keys sample_category sample_codes sample_stringify
         (Close 1011) (constructor sample_keys)) =
  [ReadyNext {| ready := false; code := Some INTERNAL_ERROR |};
   SetSessionState CREATING_USER_SESSION;
   Alert fn_danger "WebSocket connection lost" (Some "Internal server error")
     (Some "WsClientActivity") (Some false)].
Proof. reflexivity. Qed.

(** *** The further properties at the sample parameters *)

Local Abbreviation sample_step :=
  (step sample_keys sample_category sample_codes sample_stringify).
Local Abbreviation sample_run :=
  (run sample_keys sample_category sample_codes sample_stringify).

Lemma session_written_on_open_and_close_witness :
  In (SetSessionState NO_USER_SESSION)
     (snd (sample_step (Close 1002) (constructor sample_keys))) /\
  ((@Close string 1002 = Open /\ NO_USER_SESSION = USER_SESSION) \/
   (exists evt_code,
       @Close string 1002 = Close evt_code /\
       (evt_code = sample_codes LOGGED_OUT \/
        evt_code = sample_codes PROTOCOL_FAILURE ->
        NO_USER_SESSION = NO_USER_SESSION) /\
       (evt_code <> sample_codes LOGGED_OUT ->
        evt_code <> sample_codes PROTOCOL_FAILURE ->
        NO_USER_SESSION = CREATING_USER_SESSION))).
Proof.
  assert (H : In (SetSessionState NO_USER_SESSION)
                (snd (sample_step (Close 1002) (constructor sample_keys))))
    by (cbn; right; left; reflexivity).
  split; [exact H|].
  exact (session_written_on_open_and_close sample_keys sample_category
           sample_codes sample_stringify _ _ _ H).
Defined.

Lemma readiness_follows_last_event_witness :
  Forall (fun ev : @Event string => is_open_or_close ev = false) [LoggedOut] /\
  isReady_replay
    (fst (sample_run ([Upstream sample_parts; Open] ++ Close 1011 :: [LoggedOut])
            (constructor sample_keys))) =
    {| ready := false; code := Some INTERNAL_ERROR |}.
Proof.
  assert (H : Forall (fun ev : @Event string => is_open_or_close ev = false)
                [LoggedOut]) by (repeat constructor).
  split; [exact H|].
  exact (proj2 (readiness_follows_last_event sample_keys sample_category
                  sample_codes sample_stringify (constructor sample_keys)
                  [Upstream sample_parts; Open] [LoggedOut] H) 1011%Z).
Defined.

Lemma failed_lookup_stops_channel_witness :
  let err := {| err_message := "503 Service Unavailable"; err_stack := None |} in
  upstream_stopped (constructor sample_keys) = false /\
  notificationsUrl (UrlNotOk 503 "Service Unavailable") None = inr err /\
  connection_attempts
    (snd (sample_run [Upstream sample_parts; Upstream (sample_parts_at 1)]
            (fst (sample_step (UpstreamError err) (constructor sample_keys))))) = 0.
Proof.
  cbn zeta. split; [reflexivity|]. split; [reflexivity|].
  apply (failed_lookup_stops_channel sample_keys sample_category sample_codes
           sample_stringify (constructor sample_keys)
           (UrlNotOk 503 "Service Unavailable") None
           {| err_message := "503 Service Unavailable"; err_stack := None |}
           [Upstream sample_parts; Upstream (sample_parts_at 1)]);
    reflexivity.
Defined.

Lemma every_tick_reconnects_witness :
  let ps := [sample_parts_at 0; sample_parts_at 1; sample_parts_at 2] in
  Forall (fun p => sessionState p = CREATING_USER_SESSION) ps /\
  NoDup (map tick ps) /\
  connection_attempts
    (snd (sample_run (map Upstream ps) (constructor sample_keys))) = 3.
Proof.
  cbn zeta.
  assert (Hs : Forall (fun p => sessionState p = CREATING_USER_SESSION)
                 [sample_parts_at 0; sample_parts_at 1; sample_parts_at 2])
    by (repeat constructor).
  assert (Hn : NoDup (map tick
                 [sample_parts_at 0; sample_parts_at 1; sample_parts_at 2]))
    by (apply (bool_decide_unpack _); vm_compute; exact I).
  split; [exact Hs|]. split; [exact Hn|].
  exact (every_tick_reconnects sample_keys sample_category sample_codes
           sample_stringify _ Hs Hn).
Defined.

Lemma every_socket_gets_handshake_witness :
  snd (sample_run [Upstream sample_parts; Open] (constructor sample_keys)) =
    [] ++ WsCreate 0 "wss://x" (Some "base64url.bearer.authorization.cryostat.abc")
       :: [WsSubscribe 0; WsSend 0 "connect";
           ReadyNext {| ready := true; code := None |};
           SetSessionState USER_SESSION] /\
  exists rest,
    [WsSubscribe 0; WsSend 0 "connect";
     ReadyNext {| ready := true; code := None |};
     @SetSessionState string USER_SESSION] =
    WsSubscribe 0 :: WsSend 0 "connect" :: rest.
Proof.
  assert (H : snd (sample_run [Upstream sample_parts; Open]
                     (constructor sample_keys)) =
              [] ++ WsCreate 0 "wss://x"
                      (Some "base64url.bearer.authorization.cryostat.abc")
                 :: [WsSubscribe 0; WsSend 0 "connect";
                     ReadyNext {| ready := true; code := None |};
                     SetSessionState USER_SESSION]) by reflexivity.
  split; [exact H|].
  exact (every_socket_gets_handshake sample_keys sample_category sample_codes
           sample_stringify _ _ _ _ _ _ _ H).
Defined.

(** The second entry of the sample table has no [body]. *)
Lemma one_notification_per_frame_witness :
  let msg := {| meta_category := "LostTargetJvm"; message := "jvm 3" |} in
  let value := {| title := "Lost Target JVM";
                  body := None;
                  variant := Some warning;
                  hidden := None |} in
  In (meta_category msg, value) sample_keys /\
  (body value = None \/ variant value = None) /\
  notifications
    (snd (sample_step (Message msg)
            (fst (sample_run [Subscribe "LostTargetJvm"]
                    (constructor sample_keys))))) = [].
Proof.
  cbn zeta.
  assert (Hin : In ("LostTargetJvm",
                    {| title := "Lost Target JVM";
                       body := @None (@NotificationMessage string -> string);
                       variant := Some warning;
                       hidden := None |}) sample_keys)
    by (cbn; right; left; reflexivity).
  split; [exact Hin|]. split; [left; reflexivity|].
  exact (proj2 (one_notification_per_frame sample_keys sample_category
                  sample_codes sample_stringify sample_keys_NoDup
                  [Subscribe "LostTargetJvm"]
                  {| meta_category := "LostTargetJvm"; message := "jvm 3" |})
           _ Hin (or_introl eq_refl)).
Defined.

End NotificationChannel.

(** * The report cache *)

Module ReportCache.

Import ReportService.

Section Cache.

Context {Report : Type}.
Variable JSON_stringify : Report -> string.
Variable isActiveRecording : Recording -> bool.

Local Abbreviation tap_next := (tap_next JSON_stringify isActiveRecording).

(** A failing write is caught: the callback throws only what the
    [removeItem] of its handler throws. *)
Lemma tap_next_catches (o1 o2 : Outcome) (recording : Recording)
    (connectUrl : string) (report : Report) (now : string)
    (store : gmap string string) :
  fst (fst (tap_next o1 o2 Performed recording connectUrl report now store)) = None.
Proof.
  unfold ReportService.tap_next, store_report, setItem, delete_recording, removeItem.
  destruct (isActiveRecording recording); [|reflexivity].
  destruct o1 as [|e1]; [destruct o2 as [|e2]|]; try reflexivity;
    match goal with |- context [isQuotaExceededError ?e] =>
      destruct (isQuotaExceededError e) end; reflexivity.
Qed.

(** A failing write of an active recording's report raises one warning. *)
Lemma tap_next_warns (o1 o2 o3 : Outcome) (recording : Recording)
    (connectUrl : string) (report : Report) (now : string)
    (store : gmap string string) (err : StorageError) :
  isActiveRecording recording = true ->
  fst (store_report JSON_stringify o1 o2 connectUrl report now store) = Some err ->
  exists detail,
    snd (tap_next o1 o2 o3 recording connectUrl report now store) =
      [Warning "Report Caching Failed" (Some detail)].
Proof.
  intros Ha Hf. unfold ReportService.tap_next. rewrite Ha.
  destruct (store_report _ _ _ _ _ _ _) as [[e|] store1]; [|discriminate Hf].
  destruct (isQuotaExceededError e);
    destruct (delete_recording o3 recording store1); eexists; reflexivity.
Qed.

(** The handler removes the entry under [key(recording)]; what the [try]
    block left under any other key stays. *)
Lemma tap_next_leaves (o1 o2 o3 : Outcome) (recording : Recording)
    (connectUrl : string) (report : Report) (now : string)
    (store : gmap string string) (k : string) :
  k <> key recording ->
  snd (fst (tap_next o1 o2 o3 recording connectUrl report now store)) !! k =
    (if isActiveRecording recording
     then snd (store_report JSON_stringify o1 o2 connectUrl report now store)
     else store) !! k.
Proof.
  intros Hk. unfold ReportService.tap_next.
  destruct (isActiveRecording recording); [|reflexivity].
  destruct (store_report _ _ _ _ _ _ _) as [[e|] store1]; [|reflexivity].
  cbn [snd]. unfold delete_recording, removeItem.
  destruct (isQuotaExceededError e); destruct o3; cbn [fst snd];
    rewrite ?lookup_delete_ne by congruence; reflexivity.
Qed.

(** The [error] callback, by contrast, removes the two entries that
    [reportJson] writes. *)
Lemma tap_error_invalidates (connectUrl : string) (ename emessage detail : string)
    (status : Z) (store : gmap string string) :
  (500 <= status)%Z ->
  let after := snd (fst (tap_error Performed Performed connectUrl
                           (GenerationError ename emessage detail status) store)) in
  after !! analysisKey connectUrl = None /\
  after !! analysisKeyTimestamp connectUrl = None.
Proof.
  intros Hs. unfold tap_error.
  rewrite (proj2 (Z.leb_le 500 status) Hs).
  unfold deleteCachedAnalysisReport, removeItem. cbn.
  split.
  - destruct (decide (analysisKeyTimestamp connectUrl = analysisKey connectUrl)) as [->|Hne].
    + apply lookup_delete_eq.
    + rewrite lookup_delete_ne by exact Hne. apply lookup_delete_eq.
  - apply lookup_delete_eq.
Qed.

End Cache.

(** C9, at a failing input.  The store holds an earlier report of the
    sample target and its timestamp; the fresh report of the active sample
    recording does not fit and the first write throws a quota error.  The
    callback returns normally and raises the warning, but the entry the
    failed write was aimed at is not invalidated: the earlier report and its
    timestamp are still in the store, because the handler removed
    [key(recording)], which is another key. *)
Theorem failed_write_keeps_entry :
  let result := tap_next (fun report : string => report) has_state
                  (Throws (QuotaExceededError "quota exceeded")) Performed Performed
                  sample_recording sample_connectUrl "[{}]" "1700000000000"
                  sample_store in
  has_state sample_recording = true /\
  fst (fst result) = None /\
  snd result = [Warning "Report Caching Failed" (Some "quota exceeded")] /\
  key sample_recording <> analysisKey sample_connectUrl /\
  snd (fst result) !! analysisKey sample_connectUrl = Some "[]" /\
  snd (fst result) !! analysisKeyTimestamp sample_connectUrl =
    Some "1600000000000".
Proof.
  cbn zeta.
  assert (Hk : analysisKey sample_connectUrl <> key sample_recording)
    by (vm_compute; discriminate).
  assert (Ht : analysisKeyTimestamp sample_connectUrl <> key sample_recording)
    by (vm_compute; discriminate).
  split; [reflexivity|]. split; [reflexivity|]. split; [reflexivity|].
  split; [congruence|].
  rewrite !tap_next_leaves by assumption.
  cbn [has_state sample_recording state].
  unfold store_report, setItem, sample_store. cbn [fst snd].
  split.
  - apply lookup_insert_eq.
  - rewrite lookup_insert_ne by (vm_compute; discriminate).
    apply lookup_insert_eq.
Qed.

(** The same when the report is stored and the write of its timestamp
    fails: the report just written stays, without a timestamp. *)
Example half_written_entry :
  let result := tap_next (fun report : string => report) has_state
                  Performed (Throws (QuotaExceededError "quota exceeded")) Performed
                  sample_recording sample_connectUrl "[{}]" "1700000000000" ∅ in
  fst (fst result) = None /\
  snd (fst result) !! analysisKey sample_connectUrl = Some "[{}]" /\
  snd (fst result) !! analysisKeyTimestamp sample_connectUrl = None.
Proof.
  cbn zeta. split; [reflexivity|].
  rewrite !tap_next_leaves by (vm_compute; discriminate).
  cbn [has_state sample_recording state].
  unfold store_report, setItem. cbn [fst snd].
  split.
  - apply lookup_insert_eq.
  - rewrite lookup_insert_ne by (vm_compute; discriminate). apply lookup_empty.
Qed.

(** The sibling path on the same store removes both entries. *)
Example error_path_invalidates :
  let after := snd (fst (tap_error Performed Performed sample_connectUrl
                           (GenerationError "Report Failure (profile)"
                              "Bad Gateway" "upstream unavailable" 502)
                           sample_store)) in
  after !! analysisKey sample_connectUrl = None /\
  after !! analysisKeyTimestamp sample_connectUrl = None.
Proof. apply tap_error_invalidates. lia. Qed.

(** ** The cache keys *)

Lemma b64_index_char (n : N) :
  (n < 64)%N ->
  b64_index (b64_char n) = n /\ Ascii.eqb (b64_char n) "=" = false.
Proof.
  intros H. destruct n as [|p]; [split; reflexivity|].
  do 6 (destruct p as [p|p|]; try (exfalso; lia); try (split; reflexivity)).
Qed.

Local Ltac sextets :=
  first [lia | (zify; Z.to_euclidean_division_equations; lia)].

Lemma b64_ungroup_groups (bs : list N) :
  Forall (fun b => (b < 256)%N) bs -> b64_ungroup (b64_groups bs) = bs.
Proof.
  remember (length bs) as n eqn:Hn. revert bs Hn.
  induction n as [n IH] using lt_wf_ind. intros bs -> Hb.
  destruct bs as [|a [|b [|c rest]]]; [reflexivity| | |].
  - apply Forall_cons in Hb as [Ha _].
    cbn [b64_groups b64_ungroup].
    destruct (b64_index_char (a / 4)) as [-> _]; [sextets|].
    destruct (b64_index_char ((a mod 4) * 16)) as [-> _]; [sextets|].
    cbn [Ascii.eqb Bool.eqb]. f_equal. sextets.
  - apply Forall_cons in Hb as [Ha Hb]. apply Forall_cons in Hb as [Hb _].
    cbn [b64_groups b64_ungroup].
    destruct (b64_index_char (a / 4)) as [-> _]; [sextets|].
    destruct (b64_index_char ((a mod 4) * 16 + b / 16)) as [-> _]; [sextets|].
    destruct (b64_index_char ((b mod 16) * 4)) as [-> ->]; [sextets|].
    cbn [Ascii.eqb Bool.eqb]. f_equal; [sextets|]. f_equal. sextets.
  - apply Forall_cons in Hb as [Ha Hb]. apply Forall_cons in Hb as [Hb Hc].
    apply Forall_cons in Hc as [Hc Hrest].
    cbn [b64_groups b64_ungroup].
    destruct (b64_index_char (a / 4)) as [-> _]; [sextets|].
    destruct (b64_index_char ((a mod 4) * 16 + b / 16)) as [-> _]; [sextets|].
    destruct (b64_index_char ((b mod 16) * 4 + c / 64)) as [-> ->]; [sextets|].
    destruct (b64_index_char (c mod 64)) as [-> ->]; [sextets|].
    rewrite (IH (length rest)) by (cbn; lia || reflexivity || assumption).
    f_equal; [sextets|]. f_equal; [sextets|]. f_equal. sextets.
Qed.

(** Decoding gives back the text that was encoded. *)
Lemma Base64_decode_encode (s : string) : Base64_decode (Base64_encode s) = s.
Proof.
  unfold Base64_decode, Base64_encode. rewrite b64_ungroup_groups.
  - rewrite map_map.
    rewrite (map_ext _ (fun a => a)) by (intros a; apply ascii_N_embedding).
    rewrite map_id. apply string_of_list_ascii_of_string.
  - apply Forall_forall. intros b Hb.
    apply list_elem_of_In, in_map_iff in Hb as (a & <- & _).
    apply N_ascii_bounded.
Qed.

Lemma Base64_encode_inj (s1 s2 : string) :
  Base64_encode s1 = Base64_encode s2 -> s1 = s2.
Proof.
  intros H. rewrite <- (Base64_decode_encode s1), <- (Base64_decode_encode s2), H.
  reflexivity.
Qed.

Lemma list_ascii_of_string_app (a b : string) :
  list_ascii_of_string (a +:+ b) = list_ascii_of_string a ++ list_ascii_of_string b.
Proof. induction a as [|c a IH]; [reflexivity|]. simpl. f_equal. exact IH. Qed.

Lemma list_ascii_of_string_inj (a b : string) :
  list_ascii_of_string a = list_ascii_of_string b -> a = b.
Proof.
  intros H. rewrite <- (string_of_list_ascii_of_string a),
    <- (string_of_list_ascii_of_string b), H. reflexivity.
Qed.

Lemma append_inj_l (a b suffix : string) : a +:+ suffix = b +:+ suffix -> a = b.
Proof.
  intros H. apply list_ascii_of_string_inj.
  apply (f_equal list_ascii_of_string) in H.
  rewrite !list_ascii_of_string_app in H.
  exact (app_inv_tail _ _ _ H).
Qed.

Lemma suffixes_differ (a b : string) :
  a +:+ ".latestReport" <> b +:+ ".latestReportTimestamp".
Proof.
  intros H. apply (f_equal list_ascii_of_string) in H.
  rewrite !list_ascii_of_string_app in H.
  apply (f_equal (@rev ascii)) in H. rewrite !rev_app_distr in H.
  cbn in H. discriminate H.
Qed.

Lemma keys_apart (u u' : string) :
  (analysisKey u = analysisKey u' -> u = u') /\
  (analysisKeyTimestamp u = analysisKeyTimestamp u' -> u = u') /\
  analysisKey u <> analysisKeyTimestamp u'.
Proof.
  unfold analysisKey, analysisKeyTimestamp. split; [|split].
  - intros H. apply Base64_encode_inj in H. exact (append_inj_l _ _ _ H).
  - intros H. apply Base64_encode_inj in H. exact (append_inj_l _ _ _ H).
  - intros H. apply Base64_encode_inj in H. exact (suffixes_differ _ _ H).
Qed.

(** X11. The cache keys tell targets apart: two targets share the report
    key, or the timestamp key, only when they are the same target, and no
    report key is the timestamp key of any target. *)
Theorem cache_keys_separate (u u' : string) :
  (analysisKey u = analysisKey u' -> u = u') /\
  (analysisKeyTimestamp u = analysisKeyTimestamp u' -> u = u') /\
  analysisKey u <> analysisKeyTimestamp u'.
Proof.
  destruct (keys_apart u u') as (Hreport & Htime & Hcross).
  split; [exact Hreport|]. split; [exact Htime|exact Hcross].
Qed.

Lemma cache_keys_separate_witness :
  analysisKey "a" <> analysisKeyTimestamp "b".
Proof. apply (cache_keys_separate "a" "b"). Defined.

(** ** Reading back what [reportJson] stored *)

Section CacheReading.

Context {Report : Type}.
Variable JSON_stringify : Report -> string.
Variable isActiveRecording : Recording -> bool.
Variable JSON_parse : string -> option Report.
Variable parse_number : string -> option Z.
Variable no_results : Report.

Local Abbreviation getCached :=
  (getCachedAnalysisReport JSON_parse parse_number no_results).
Local Abbreviation reportJson :=
  (ReportService.reportJson JSON_stringify isActiveRecording).
Local Abbreviation Fetched := (@Fetched Report).

(** The cached value of a target depends on its two entries only. *)
Lemma getCached_ext (u : string) (store1 store2 : gmap string string) :
  store1 !! analysisKey u = store2 !! analysisKey u ->
  store1 !! analysisKeyTimestamp u = store2 !! analysisKeyTimestamp u ->
  getCached u store1 = getCached u store2.
Proof.
  intros H1 H2. unfold getCachedAnalysisReport. rewrite H1, H2. reflexivity.
Qed.

(** [reportJson] writes and removes nothing but the two entries of its
    target and the entry under [key(recording)]. *)
Lemma reportJson_frame (o1 o2 o3 e1 e2 : Outcome) (recording : Recording)
    (u : string) (resp : Fetched) (now : string) (store : gmap string string)
    (k : string) :
  k <> analysisKey u -> k <> analysisKeyTimestamp u -> k <> key recording ->
  snd (fst (reportJson o1 o2 o3 e1 e2 recording u resp now store)) !! k =
    store !! k.
Proof.
  intros Ha Ht Hk. unfold ReportService.reportJson.
  destruct (String.eqb (reportUrl recording) ""); [reflexivity|].
  destruct resp as [results|statusText text status|ename emessage].
  - pose proof (tap_next_leaves JSON_stringify isActiveRecording o1 o2 o3
                  recording u results now store k Hk) as Hleave.
    destruct (tap_next _ _ _ _ _ _ _ _ _ _) as [[thrown store1] calls].
    cbn [fst snd] in *. rewrite Hleave.
    destruct (isActiveRecording recording); [|reflexivity].
    unfold store_report, setItem.
    destruct o1; [destruct o2|]; cbn [fst snd];
      rewrite ?lookup_insert_ne by congruence; reflexivity.
  - unfold tap_error, deleteCachedAnalysisReport, removeItem.
    destruct (500 <=? status)%Z; [|reflexivity].
    destruct e1; [destruct e2|]; cbn [fst snd];
      rewrite ?lookup_delete_ne by congruence; reflexivity.
  - reflexivity.
Qed.

(** X12. Storing and reading back: when the report of an active recording
    is fetched and both writes succeed, the subscriber is handed the
    report, nothing is notified, and [getCachedAnalysisReport] for the same
    target then returns that report with the time of the write. *)
Theorem cached_report_round_trip (o3 e1 e2 : Outcome) (recording : Recording)
    (u : string) (results : Report) (now : string) (t : Z)
    (store : gmap string string) :
  reportUrl recording <> "" ->
  isActiveRecording recording = true ->
  JSON_stringify results <> "" ->
  JSON_parse (JSON_stringify results) = Some results ->
  parse_number now = Some t ->
  let result := reportJson Performed Performed o3 e1 e2 recording u
                  (RespOk results) now store in
  fst (fst result) = Emits results /\
  snd result = [] /\
  getCached u (snd (fst result)) = Some {| report := results; timestamp := t |}.
Proof.
  intros Hurl Hactive Htext Hparse Hnow. cbn zeta.
  unfold ReportService.reportJson, tap_next, store_report, setItem.
  rewrite (proj2 (String.eqb_neq _ _) Hurl), Hactive. cbn [fst snd].
  split; [reflexivity|]. split; [reflexivity|].
  unfold getCachedAnalysisReport.
  rewrite lookup_insert_ne
    by (intros H; symmetry in H; exact (proj2 (proj2 (keys_apart u u)) H)).
  rewrite !lookup_insert_eq. cbn [Number_of].
  rewrite (proj2 (String.eqb_neq _ _) Htext), Hparse, Hnow. reflexivity.
Qed.

Lemma deleted_reads_empty (u : string) (store : gmap string string) :
  getCached u (snd (deleteCachedAnalysisReport Performed Performed u store)) =
    Some {| report := no_results; timestamp := 0 |}.
Proof.
  unfold deleteCachedAnalysisReport, removeItem. cbn [fst snd].
  destruct (keys_apart u u) as (_ & _ & Hat).
  unfold getCachedAnalysisReport.
  rewrite lookup_delete_ne by (intros H; symmetry in H; exact (Hat H)).
  rewrite lookup_delete_eq. reflexivity.
Qed.

(** X13. Invalidation: after [deleteCachedAnalysisReport] for a target,
    [getCachedAnalysisReport] returns the empty report with timestamp 0 for
    it, and what is cached for any other target is as before. *)
Theorem invalidated_report_is_empty (u : string) (store : gmap string string) :
  let after := snd (deleteCachedAnalysisReport Performed Performed u store) in
  getCached u after = Some {| report := no_results; timestamp := 0 |} /\
  (forall u', u' <> u -> getCached u' after = getCached u' store).
Proof.
  cbn zeta. split; [apply deleted_reads_empty|].
  unfold deleteCachedAnalysisReport, removeItem. cbn [fst snd].
  intros u' Hne.
  destruct (keys_apart u' u) as (Ha & Ht & Hat).
  destruct (keys_apart u u') as (_ & _ & Hta).
  apply getCached_ext; rewrite !lookup_delete_ne; try reflexivity;
    (intros Heq;
     first [ exact (Hne (Ha Heq)) | exact (Hne (Ha (eq_sym Heq)))
           | exact (Hne (Ht Heq)) | exact (Hne (Ht (eq_sym Heq)))
           | exact (Hat Heq) | exact (Hat (eq_sym Heq))
           | exact (Hta Heq) | exact (Hta (eq_sym Heq)) ]).
Qed.

(** X14. When the report was written and the write of its timestamp
    failed, the callback warns and the subscriber still gets the report;
    the cache then serves the fresh report under the timestamp that was
    stored before the call (0 when there was none), as long as
    [key(recording)] is not one of the two entries. *)
Theorem half_written_report_is_served (e1 e2 : Outcome) (err : StorageError)
    (recording : Recording) (u : string) (results : Report) (now : string)
    (store : gmap string string) :
  reportUrl recording <> "" ->
  isActiveRecording recording = true ->
  JSON_stringify results <> "" ->
  JSON_parse (JSON_stringify results) = Some results ->
  key recording <> analysisKey u ->
  key recording <> analysisKeyTimestamp u ->
  let result := reportJson Performed (Throws err) Performed e1 e2 recording u
                  (RespOk results) now store in
  fst (fst result) = Emits results /\
  (exists detail, snd result = [Warning "Report Caching Failed" (Some detail)]) /\
  getCached u (snd (fst result)) =
    Some {| report := results;
            timestamp := match Number_of parse_number
                                 (store !! analysisKeyTimestamp u) with
                         | Some n => n
                         | None => 0%Z
                         end |}.
Proof.
  intros Hurl Hactive Htext Hparse Hka Hkt. cbn zeta.
  destruct (keys_apart u u) as (_ & _ & Hat).
  unfold ReportService.reportJson, tap_next, store_report, setItem,
    delete_recording, removeItem.
  rewrite (proj2 (String.eqb_neq _ _) Hurl), Hactive. cbn [fst snd].
  destruct (isQuotaExceededError err); cbn [fst snd];
    (split; [reflexivity|]); (split; [eexists; reflexivity|]);
    unfold getCachedAnalysisReport;
    rewrite !lookup_delete_ne by congruence;
    rewrite lookup_insert_eq;
    rewrite lookup_insert_ne by exact Hat;
    rewrite (proj2 (String.eqb_neq _ _) Htext), Hparse; reflexivity.
Qed.

(** X15. A response that is not OK reaches the subscriber as the
    generation error named after the recording and raises exactly one
    notification.  From status 500 on it is a warning carrying the body
    text, and the cached report of the target is invalidated; below 500 it
    is a danger alert with the status text, and the store is left as it
    was. *)
Theorem failed_response_reported (o1 o2 o3 : Outcome) (recording : Recording)
    (u : string) (statusText text : string) (status : Z) (now : string)
    (store : gmap string string) :
  reportUrl recording <> "" ->
  let ge := GenerationError ("Report Failure (" +:+ name recording +:+ ")")
              statusText text status in
  let result := reportJson o1 o2 o3 Performed Performed recording u
                  (RespNotOk statusText text status) now store in
  fst (fst result) = Errors ge /\
  ((500 <= status)%Z ->
   snd result = [Warning ("Report generation failure: " +:+ text) None] /\
   getCached u (snd (fst result)) =
     Some {| report := no_results; timestamp := 0 |}) /\
  ((status < 500)%Z ->
   snd result = [Danger ("Report Failure (" +:+ name recording +:+ ")") statusText] /\
   snd (fst result) = store).
Proof.
  intros Hurl. cbn zeta. unfold ReportService.reportJson, tap_error.
  rewrite (proj2 (String.eqb_neq _ _) Hurl).
  destruct (Z.leb_spec 500 status) as [Hge|Hlt].
  - fold (deleteCachedAnalysisReport Performed Performed u store).
    cbn [fst snd deleteCachedAnalysisReport removeItem].
    split; [reflexivity|]. split; [|intros; lia].
    intros _. split; [reflexivity|].
    apply deleted_reads_empty.
  - cbn [fst snd]. split; [reflexivity|]. split; [intros; lia|].
    intros _. split; reflexivity.
Qed.

(** X16. [reportJson] touches the store in two situations only: the report
    of an active recording was fetched, or the response failed with a
    status from 500 on.  Without a report URL, for an archived recording,
    for a failure below 500 and for a failed request the store stays as it
    was, whatever the browser does with storage calls. *)
Theorem storage_touched_only_when (o1 o2 o3 e1 e2 : Outcome)
    (recording : Recording) (u : string) (resp : Fetched) (now : string)
    (store : gmap string string) :
  snd (fst (reportJson o1 o2 o3 e1 e2 recording u resp now store)) <> store ->
  reportUrl recording <> "" /\
  ((exists results, resp = RespOk results /\ isActiveRecording recording = true) \/
   (exists statusText text status,
       resp = RespNotOk statusText text status /\ (500 <= status)%Z)).
Proof.
  unfold ReportService.reportJson.
  destruct (String.eqb_spec (reportUrl recording) "") as [_|Hurl];
    [intros H; exfalso; apply H; reflexivity|].
  intros H. split; [exact Hurl|].
  destruct resp as [results|statusText text status|ename emessage].
  - left. exists results. split; [reflexivity|].
    destruct (isActiveRecording recording) eqn:Hactive; [reflexivity|].
    exfalso. apply H. unfold tap_next. rewrite Hactive. reflexivity.
  - right. exists statusText, text, status. split; [reflexivity|].
    destruct (Z.leb_spec 500 status) as [Hge|Hlt]; [exact Hge|].
    exfalso. apply H. unfold tap_error.
    rewrite (proj2 (Z.leb_gt 500 status) Hlt). reflexivity.
  - exfalso. apply H. reflexivity.
Qed.

(** X17. Targets do not disturb each other: whatever the response and
    whatever the storage calls do, after [reportJson] for one target the
    cached value of any other target is as before, provided
    [key(recording)] is not an entry of that other target. *)
Theorem other_targets_untouched (o1 o2 o3 e1 e2 : Outcome)
    (recording : Recording) (u u' : string) (resp : Fetched) (now : string)
    (store : gmap string string) :
  u' <> u ->
  key recording <> analysisKey u' ->
  key recording <> analysisKeyTimestamp u' ->
  getCached u'
    (snd (fst (reportJson o1 o2 o3 e1 e2 recording u resp now store))) =
  getCached u' store.
Proof.
  intros Hne Hka Hkt.
  destruct (keys_apart u' u) as (Ha & Ht & Hat).
  destruct (keys_apart u u') as (_ & _ & Hta).
  apply getCached_ext; apply reportJson_frame;
    (intros Heq;
     first [ exact (Hne (Ha Heq)) | exact (Hne (Ht Heq))
           | exact (Hat Heq) | exact (Hta (eq_sym Heq))
           | exact (Hka (eq_sym Heq)) | exact (Hkt (eq_sym Heq)) ]).
Qed.

End CacheReading.

(** ** The cache properties at the sample recording *)

Local Abbreviation sample_reportJson :=
  (reportJson (fun text : string => text) has_state).
Local Abbreviation sample_getCached :=
  (getCachedAnalysisReport sample_parse sample_number "[]").

Lemma cached_report_round_trip_witness :
  let result := sample_reportJson Performed Performed Performed Performed
                  Performed sample_recording sample_connectUrl
                  (RespOk "[{}]") "1700000000000" sample_store in
  reportUrl sample_recording <> "" /\
  has_state sample_recording = true /\
  sample_number "1700000000000" = Some 1700000000000%Z /\
  fst (fst result) = Emits "[{}]" /\
  snd result = [] /\
  sample_getCached sample_connectUrl (snd (fst result)) =
    Some {| report := "[{}]"; timestamp := 1700000000000 |}.
Proof.
  cbn zeta. split; [discriminate|]. split; [reflexivity|]. split; [reflexivity|].
  apply (cached_report_round_trip (fun text : string => text) has_state
           sample_parse sample_number "[]" Performed Performed Performed
           sample_recording sample_connectUrl "[{}]" "1700000000000"
           1700000000000%Z sample_store);
    first [discriminate | reflexivity].
Defined.

Lemma invalidated_report_is_empty_witness :
  let after := snd (deleteCachedAnalysisReport Performed Performed
                      "service:jmx:other" sample_store) in
  sample_connectUrl <> "service:jmx:other" /\
  sample_getCached sample_connectUrl after =
    sample_getCached sample_connectUrl sample_store.
Proof.
  cbn zeta. split; [discriminate|].
  apply (invalidated_report_is_empty sample_parse sample_number "[]"
           "service:jmx:other" sample_store).
  discriminate.
Defined.

Lemma half_written_report_is_served_witness :
  let result := sample_reportJson Performed
                  (Throws (QuotaExceededError "quota exceeded")) Performed
                  Performed Performed sample_recording sample_connectUrl
                  (RespOk "[{}]") "1700000000000" sample_store in
  key sample_recording <> analysisKey sample_connectUrl /\
  key sample_recording <> analysisKeyTimestamp sample_connectUrl /\
  sample_getCached sample_connectUrl (snd (fst result)) =
    Some {| report := "[{}]";
            timestamp :=
              match Number_of sample_number
                      (sample_store !! analysisKeyTimestamp sample_connectUrl) with
              | Some n => n
              | None => 0%Z
              end |}.
Proof.
  cbn zeta.
  assert (Hk : key sample_recording <> analysisKey sample_connectUrl)
    by (vm_compute; discriminate).
  assert (Ht : key sample_recording <> analysisKeyTimestamp sample_connectUrl)
    by (vm_compute; discriminate).
  split; [exact Hk|]. split; [exact Ht|].
  apply (half_written_report_is_served (fun text : string => text) has_state
           sample_parse sample_number "[]" Performed Performed
           (QuotaExceededError "quota exceeded") sample_recording
           sample_connectUrl "[{}]" "1700000000000" sample_store);
    first [assumption | discriminate | reflexivity].
Defined.

Lemma failed_response_reported_witness :
  let result := sample_reportJson Performed Performed Performed Performed
                  Performed sample_recording sample_connectUrl
                  (RespNotOk "Bad Gateway" "upstream unavailable" 502)
                  "1700000000000" sample_store in
  reportUrl sample_recording <> "" /\
  (500 <= 502)%Z /\
  snd result = [Warning "Report generation failure: upstream unavailable" None] /\
  sample_getCached sample_connectUrl (snd (fst result)) =
    Some {| report := "[]"; timestamp := 0 |}.
Proof.
  cbn zeta. split; [discriminate|]. split; [lia|].
  apply (failed_response_reported (fun text : string => text) has_state
           sample_parse sample_number "[]" Performed Performed Performed
           sample_recording sample_connectUrl "Bad Gateway"
           "upstream unavailable" 502 "1700000000000" sample_store);
    first [discriminate | lia].
Defined.

Lemma storage_touched_only_when_witness :
  let resp := RespOk "[{}]" in
  snd (fst (sample_reportJson Performed Performed Performed Performed Performed
              sample_recording sample_connectUrl resp "1700000000000" ∅)) <> ∅ /\
  reportUrl sample_recording <> "" /\
  ((exists results, resp = RespOk results /\ has_state sample_recording = true) \/
   (exists statusText text status,
       resp = RespNotOk statusText text status /\ (500 <= status)%Z)).
Proof.
  cbn zeta.
  assert (H : snd (fst (sample_reportJson Performed Performed Performed
                          Performed Performed sample_recording
                          sample_connectUrl (RespOk "[{}]") "1700000000000" ∅))
              <> ∅).
  { intros Heq.
    apply (f_equal (fun m => m !! analysisKeyTimestamp sample_connectUrl)) in Heq.
    cbn in Heq. rewrite lookup_insert_eq, lookup_empty in Heq. discriminate Heq. }
  split; [exact H|].
  exact (storage_touched_only_when (fun text : string => text) has_state
           _ _ _ _ _ _ _ _ _ _ H).
Defined.

Lemma other_targets_untouched_witness :
  let result := sample_reportJson Performed
                  (Throws (QuotaExceededError "quota exceeded")) Performed
                  Performed Performed sample_recording "service:jmx:other"
                  (RespOk "[{}]") "1700000000000" sample_store in
  sample_connectUrl <> "service:jmx:other" /\
  key sample_recording <> analysisKey sample_connectUrl /\
  key sample_recording <> analysisKeyTimestamp sample_connectUrl /\
  sample_getCached sample_connectUrl (snd (fst result)) =
    sample_getCached sample_connectUrl sample_store.
Proof.
  cbn zeta.
  assert (Hk : key sample_recording <> analysisKey sample_connectUrl)
    by (vm_compute; discriminate).
  assert (Ht : key sample_recording <> analysisKeyTimestamp sample_connectUrl)
    by (vm_compute; discriminate).
  split; [discriminate|]. split; [exact Hk|]. split; [exact Ht|].
  apply (other_targets_untouched (fun text : string => text) has_state
           sample_parse sample_number "[]");
    first [assumption | discriminate].
Defined.

End ReportCache.
